(** * Brickz progress tracker: the analyzer of [app.py]

    A shallow embedding of [encode_image_to_base64],
    [analyze_progress_with_gpt4] and the handler of the analyze button,
    with the Python built-ins they call ([str.split], [str.startswith],
    [str.replace], [str.strip], [int], [base64.b64encode]).

    Conventions.
    - A Python [str] is a [string]; the character of code [n] stands for
      the code point [n], so the texts covered are those whose code points
      are below 256.
    - A Python [bytes] is a [list byte].
    - A computation that may raise is a value of [PyException + A]
      ([inl] is a raised exception, [inr] a returned value).
    - The image codec, the API client and the network are outside the
      program: they are variables of the section [Analyzer]. *)

From Stdlib Require Import ZArith NArith Arith Bool List Lia.
From Stdlib Require Import Strings.Ascii Strings.String Strings.Byte.
From Stdlib Require Import Numbers.DecimalString.
Import ListNotations.

Local Open Scope string_scope.
Local Open Scope list_scope.

(** ** Exceptions *)

(** A raised exception: its class name and [str(e)]. *)
Record PyException : Type := mkExc { exc_class : string; exc_str : string }.

Definition Exc (A : Type) : Type := (PyException + A)%type.

Definition ret {A} (a : A) : Exc A := inr a.
Definition raise {A} (e : PyException) : Exc A := inl e.
Definition bind {A B} (m : Exc A) (k : A -> Exc B) : Exc B :=
  match m with
  | inl e => inl e
  | inr a => k a
  end.

(** [try: m / except: h] *)
Definition try_except {A} (m : Exc A) (h : PyException -> Exc A) : Exc A :=
  match m with
  | inl e => h e
  | inr a => inr a
  end.

Notation "x <- m ;; k" := (bind m (fun x => k))
  (at level 61, m at next level, right associativity).

(** ** Python string methods *)

Module Py.

Definition LF : ascii := "010"%char.

(** [str.isspace] on one character, for code points below 256:
    TAB LF VT FF CR, FS GS RS US, SPACE, NEL and NBSP. *)
Definition isspace (c : ascii) : bool :=
  let n := N_of_ascii c in
  ((9 <=? n) && (n <=? 13) || (28 <=? n) && (n <=? 32)
   || (n =? 133) || (n =? 160))%N.

(** [s.startswith(p)] *)
Definition startswith (p s : string) : bool := String.prefix p s.

(** [s[n:]] *)
Fixpoint drop (n : nat) (s : string) : string :=
  match n, s with
  | O, _ => s
  | S k, EmptyString => EmptyString
  | S k, String _ s' => drop k s'
  end.

(** [s.split(sep)] for a separator of one character: never the empty
    list, one more piece than there are separators. *)
Fixpoint split (sep : ascii) (s : string) : list string :=
  match s with
  | EmptyString => [EmptyString]
  | String c s' =>
      if Ascii.eqb c sep then EmptyString :: split sep s'
      else match split sep s' with
           | piece :: pieces => String c piece :: pieces
           | [] => [String c EmptyString]
           end
  end.

(** [s.replace(old, new)]: the occurrences of [old] are found from the
    left and do not overlap; each one is replaced.  [skip] counts the
    characters of the occurrence just matched that are still to be
    passed over. *)
Fixpoint replace_from (old new : string) (skip : nat) (s : string) : string :=
  match s with
  | EmptyString => EmptyString
  | String c s' =>
      match skip with
      | S k => replace_from old new k s'
      | O =>
          if startswith old s
          then new ++ replace_from old new (String.length old - 1) s'
          else String c (replace_from old new 0 s')
      end
  end.

(** With an empty [old], Python puts [new] before every character and at
    the end. *)
Fixpoint intersperse (new s : string) : string :=
  match s with
  | EmptyString => new
  | String c s' => new ++ String c (intersperse new s')
  end.

Definition replace (old new s : string) : string :=
  match old with
  | EmptyString => intersperse new s
  | _ => replace_from old new 0 s
  end.

Fixpoint lstrip (s : string) : string :=
  match s with
  | EmptyString => EmptyString
  | String c s' => if isspace c then lstrip s' else s
  end.

Fixpoint rstrip (s : string) : string :=
  match s with
  | EmptyString => EmptyString
  | String c s' =>
      match rstrip s' with
      | EmptyString => if isspace c then EmptyString else String c EmptyString
      | r => String c r
      end
  end.

(** [s.strip()] *)
Definition strip (s : string) : string := rstrip (lstrip s).

(** [sub in s] *)
Fixpoint contains (sub s : string) : bool :=
  startswith sub s ||
  match s with
  | EmptyString => false
  | String _ s' => contains sub s'
  end.

(** *** [int(s)] for a [str] argument, base 10

    Leading white space, an optional sign, decimal digits in which single
    underscores may separate digits, trailing white space.  Anything else
    raises [ValueError], and so does a literal of more digits than
    [int_max_str_digits].  The text of the exception is never observed by
    the program. *)

(** The white space of [int]: the ASCII characters TAB LF VT FF CR and
    SPACE, and the white space above ASCII, here NEL and NBSP.  The
    separators FS GS RS US, which [str.strip] removes, are not accepted. *)
Definition isspace_int (c : ascii) : bool :=
  let n := N_of_ascii c in
  ((9 <=? n) && (n <=? 13) || (n =? 32) || (n =? 133) || (n =? 160))%N.

Fixpoint skip_spaces (s : string) : string :=
  match s with
  | EmptyString => EmptyString
  | String c s' => if isspace_int c then skip_spaces s' else s
  end.

Definition isdigit (c : ascii) : bool :=
  let n := N_of_ascii c in ((48 <=? n) && (n <=? 57))%N.

Definition digit_value (c : ascii) : Z := Z.of_N (N_of_ascii c) - 48.

Definition underscore : ascii := "_"%char.

(** [sys.int_info.default_max_str_digits] *)
Definition int_max_str_digits : N := 4300.

Definition ValueError (s : string) : PyException :=
  mkExc "ValueError" ("invalid literal for int() with base 10: '" ++ s ++ "'").

Definition ValueError_limit : PyException :=
  mkExc "ValueError" "Exceeds the limit (4300 digits) for integer string conversion".

(** The scan over digits and underscores.  [prev_us] tells whether the
    previous character was an underscore, [acc] is the value read and [n]
    the number of digits read.  The result is [None] on a doubled or a
    trailing underscore, else the value, the digit count and the rest. *)
Fixpoint scan_digits (s : string) (prev_us : bool) (acc : Z) (n : N)
  : option (Z * N * string) :=
  match s with
  | EmptyString => if prev_us then None else Some (acc, n, s)
  | String c s' =>
      if isdigit c then scan_digits s' false (10 * acc + digit_value c) (n + 1)
      else if Ascii.eqb c underscore then
        if prev_us then None else scan_digits s' true acc n
      else if prev_us then None else Some (acc, n, s)
  end.

Definition int_ (s : string) : Exc Z :=
  let s1 := skip_spaces s in
  let '(negative, s2) :=
    match s1 with
    | String "+" r => (false, r)
    | String "-" r => (true, r)
    | _ => (false, s1)
    end in
  match s2 with
  | String "_" _ => raise (ValueError s)
  | _ =>
      match scan_digits s2 false 0 0 with
      | None => raise (ValueError s)
      | Some (v, n, rest) =>
          if (n =? 0)%N then raise (ValueError s)
          else if (int_max_str_digits <? n)%N then raise ValueError_limit
          else match skip_spaces rest with
               | EmptyString => ret (if negative then (- v)%Z else v)
               | _ => raise (ValueError s)
               end
      end
  end.

End Py.

(** ** [base64.b64encode] and its inverse *)

Module Base64.

Local Open Scope N_scope.

(** The alphabet of RFC 4648, section 4. *)
Definition table_b2a_base64 : list byte :=
  list_byte_of_string
    "ABCDEFGHIJKLMNOPQRSTUVWXYZabcdefghijklmnopqrstuvwxyz0123456789+/".

Definition BASE64_PAD : byte := "="%byte.

(** The character of a group of six bits. *)
Definition b2a (n : N) : byte :=
  nth (N.to_nat (N.land n 63)) table_b2a_base64 BASE64_PAD.

Fixpoint index_of (c : byte) (table : list byte) (i : N) : option N :=
  match table with
  | [] => None
  | x :: table' => if Byte.eqb x c then Some i else index_of c table' (i + 1)
  end.

(** The six bits of a character; [None] outside the alphabet. *)
Definition a2b (c : byte) : option N := index_of c table_b2a_base64 0.

Definition code (b : byte) : N := Byte.to_N b.

(** [base64.b64encode(s)]: three bytes give four characters; a last group
    of one or two bytes is padded with [=]. *)
Fixpoint b64encode (s : list byte) : list byte :=
  match s with
  | [] => []
  | [b0] =>
      [ b2a (N.shiftr (code b0) 2);
        b2a (N.shiftl (N.land (code b0) 3) 4);
        BASE64_PAD; BASE64_PAD ]
  | [b0; b1] =>
      [ b2a (N.shiftr (code b0) 2);
        b2a (N.lor (N.shiftl (N.land (code b0) 3) 4) (N.shiftr (code b1) 4));
        b2a (N.shiftl (N.land (code b1) 15) 2);
        BASE64_PAD ]
  | b0 :: b1 :: b2 :: rest =>
      b2a (N.shiftr (code b0) 2)
      :: b2a (N.lor (N.shiftl (N.land (code b0) 3) 4) (N.shiftr (code b1) 4))
      :: b2a (N.lor (N.shiftl (N.land (code b1) 15) 2) (N.shiftr (code b2) 6))
      :: b2a (code b2)
      :: b64encode rest
  end.

(** The bytes of four groups of six bits. *)
Definition byte0 (s0 s1 : N) : option byte :=
  Byte.of_N (N.lor (N.shiftl s0 2) (N.shiftr s1 4)).
Definition byte1 (s1 s2 : N) : option byte :=
  Byte.of_N (N.lor (N.shiftl (N.land s1 15) 4) (N.shiftr s2 2)).
Definition byte2 (s2 s3 : N) : option byte :=
  Byte.of_N (N.lor (N.shiftl (N.land s2 3) 6) s3).

Definition cons_opt (b : option byte) (bs : option (list byte))
  : option (list byte) :=
  match b, bs with
  | Some x, Some xs => Some (x :: xs)
  | _, _ => None
  end.

(** Decoding of padded base64 text: groups of four characters of the
    alphabet, the last one possibly ending in one or two [=]. *)
Fixpoint b64decode_bytes (cs : list byte) : option (list byte) :=
  match cs with
  | [] => Some []
  | c0 :: c1 :: c2 :: c3 :: rest =>
      match a2b c0, a2b c1, a2b c2, a2b c3 with
      | Some s0, Some s1, Some s2, Some s3 =>
          cons_opt (byte0 s0 s1)
            (cons_opt (byte1 s1 s2)
               (cons_opt (byte2 s2 s3) (b64decode_bytes rest)))
      | Some s0, Some s1, Some s2, None =>
          match rest with
          | [] =>
              if Byte.eqb c3 BASE64_PAD
              then cons_opt (byte0 s0 s1) (cons_opt (byte1 s1 s2) (Some []))
              else None
          | _ => None
          end
      | Some s0, Some s1, None, None =>
          match rest with
          | [] =>
              if Byte.eqb c2 BASE64_PAD && Byte.eqb c3 BASE64_PAD
              then cons_opt (byte0 s0 s1) (Some [])
              else None
          | _ => None
          end
      | _, _, _, _ => None
      end
  | _ => None
  end.

(** [base64.b64decode] of a [str] *)
Definition b64decode (s : string) : option (list byte) :=
  b64decode_bytes (list_byte_of_string s).

End Base64.

(** ** The reply of the model and its parsed form *)

(** The dictionary returned by [analyze_progress_with_gpt4]. *)
Record AnalysisResult : Type := mkResult {
  progress : Z;
  completed : string;
  missing : string;
  notes : string;
  raw_response : string
}.

(** The four local variables of the scan. *)
Record Fields : Type := mkFields {
  progress_percent : Z;
  f_completed : string;
  f_missing : string;
  f_notes : string
}.

Definition initial_fields : Fields := mkFields 0 "" "" "".

(** [line.replace('PROGRESS:', '').strip().replace('%', '')] *)
Definition progress_str (line : string) : string :=
  Py.replace "%" "" (Py.strip (Py.replace "PROGRESS:" "" line)).

(** [try: progress_percent = int(progress_str) / except: progress_percent = 0] *)
Definition parse_progress (line : string) : Exc Z :=
  try_except (Py.int_ (progress_str line)) (fun _ => ret 0%Z).

(** The body of the loop over the lines. *)
Definition scan_line (v : Fields) (line : string) : Exc Fields :=
  if Py.startswith "PROGRESS:" line then
    p <- parse_progress line ;;
    ret (mkFields p (f_completed v) (f_missing v) (f_notes v))
  else if Py.startswith "COMPLETED_PARTS:" line then
    ret (mkFields (progress_percent v)
           (Py.strip (Py.replace "COMPLETED_PARTS:" "" line))
           (f_missing v) (f_notes v))
  else if Py.startswith "MISSING_PARTS:" line then
    ret (mkFields (progress_percent v) (f_completed v)
           (Py.strip (Py.replace "MISSING_PARTS:" "" line))
           (f_notes v))
  else if Py.startswith "NOTES:" line then
    ret (mkFields (progress_percent v) (f_completed v) (f_missing v)
           (Py.strip (Py.replace "NOTES:" "" line)))
  else ret v.

(** [for line in lines: ...] *)
Fixpoint scan_lines (lines : list string) (v : Fields) : Exc Fields :=
  match lines with
  | [] => ret v
  | line :: lines' => v' <- scan_line v line ;; scan_lines lines' v'
  end.

(** Lines 169 to 194: from the text of the reply to the dictionary. *)
Definition parse_response (result_text : string) : Exc AnalysisResult :=
  v <- scan_lines (Py.split Py.LF result_text) initial_fields ;;
  ret (mkResult (progress_percent v) (f_completed v) (f_missing v) (f_notes v)
         result_text).

(** ** The request *)

(** One element of the list [content]. *)
Inductive ContentPart : Type :=
| text_part (text : string)
| image_url_part (url detail : string).

Record Message : Type := mkMessage {
  role : string;
  content : list ContentPart
}.

Record ChatRequest : Type := mkRequest {
  model : string;
  messages : list Message;
  max_tokens : Z
}.

(** What the program reads of the answer:
    [response.choices[0].message.content], which the API may leave at
    [None]. *)
Record Choice : Type := mkChoice { message_content : option string }.
Record ChatCompletion : Type := mkCompletion { choices : list Choice }.

Definition instruction : string :=
"You are analyzing LEGO building progress. I will show you 3 reference images of the completed LEGO structure (from different angles), followed by the user's current progress image.

Please analyze:
1. What percentage of the structure is complete? (0-100%)
2. Which parts are built correctly?
3. Which parts are missing or incomplete?
4. Any differences in color, position, or brick placement?

Provide your response in this exact format:
PROGRESS: [number]%
COMPLETED_PARTS: [description]
MISSING_PARTS: [description]
NOTES: [any additional observations in concise form]

Here are the reference images of the completed structure:".

(** [f"{i}"] for a natural number *)
Definition format_int (i : nat) : string :=
  NilEmpty.string_of_uint (Nat.to_uint i).

(** [f"\n\nReference Image {i}:"] *)
Definition reference_label (i : nat) : string :=
  String Py.LF (String Py.LF ("Reference Image " ++ format_int i ++ ":")).

Definition current_label : string :=
  String Py.LF (String Py.LF "User's Current Progress Image:").

(** [f"data:image/jpeg;base64,{b64}"] *)
Definition data_uri (b64 : string) : string := "data:image/jpeg;base64," ++ b64.

Definition image_part (b64 : string) : ContentPart :=
  image_url_part (data_uri b64) "high".

Definition IndexError : PyException :=
  mkExc "IndexError" "list index out of range".

Definition AttributeError_split : PyException :=
  mkExc "AttributeError" "'NoneType' object has no attribute 'split'".

(** The session state of the page. *)
Record SessionState (Image : Type) : Type := mkSession {
  current_image : option Image;
  progress_result : option AnalysisResult;
  captured_frame : option Image
}.
Arguments mkSession {Image}.
Arguments current_image {Image}.
Arguments progress_result {Image}.
Arguments captured_frame {Image}.

Section Analyzer.

(** A PIL image and its serialisation [image.save(buffered, format="JPEG")]
    followed by [buffered.getvalue()]; the codec raises on an image it
    cannot write. *)
Variable Image : Type.
Variable save_jpeg : Image -> Exc (list byte).

(** [OpenAI(api_key=...)] and [client.chat.completions.create(...)]. *)
Variable Client : Type.
Variable OpenAI : string -> Exc Client.
Variable chat_completions_create : Client -> ChatRequest -> Exc ChatCompletion.

(** The output alphabet of [b64encode] is ASCII, where [bytes.decode]
    maps each byte to the character of the same code. *)
Definition encode_image_to_base64 (image : Image) : Exc string :=
  buffered <- save_jpeg image ;;
  ret (string_of_list_byte (Base64.b64encode buffered)).

(** [for i, ref_img in enumerate(reference_images, 1): ...], on the list
    [content] built so far. *)
Fixpoint add_reference_images (i : nat) (reference_images : list Image)
         (content : list ContentPart) : Exc (list ContentPart) :=
  match reference_images with
  | [] => ret content
  | ref_img :: rest =>
      ref_base64 <- encode_image_to_base64 ref_img ;;
      add_reference_images (S i) rest
        (content ++ [text_part (reference_label i); image_part ref_base64])
  end.

(** Lines 103 to 164: the arguments of the one request. *)
Definition build_request (reference_images : list Image) (current_img : Image)
  : Exc ChatRequest :=
  curr_base64 <- encode_image_to_base64 current_img ;;
  content <- add_reference_images 1 reference_images [text_part instruction] ;;
  let content :=
    content ++ [text_part current_label; image_part curr_base64] in
  ret (mkRequest "gpt-4o-mini" [mkMessage "user" content] 500).

(** [response.choices[0].message.content] followed by the first use of
    the text, [result_text.split]. *)
Definition result_text_of (response : ChatCompletion) : Exc string :=
  match choices response with
  | [] => raise IndexError
  | choice :: _ =>
      match message_content choice with
      | None => raise AttributeError_split
      | Some text => ret text
      end
  end.

(** The [try] block of [analyze_progress_with_gpt4]. *)
Definition analyze_body (reference_images : list Image) (current_img : Image)
           (api_key : string) : Exc AnalysisResult :=
  client <- OpenAI api_key ;;
  request <- build_request reference_images current_img ;;
  response <- chat_completions_create client request ;;
  result_text <- result_text_of response ;;
  parse_response result_text.

(** [st.error(f"Error analyzing images: {str(e)}")] *)
Definition error_message (e : PyException) : string :=
  "Error analyzing images: " ++ exc_str e.

(** The function: its value ([None] or the dictionary) and the error
    messages it shows on the page. *)
Definition analyze_progress_with_gpt4 (reference_images : list Image)
           (current_img : Image) (api_key : string)
  : option AnalysisResult * list string :=
  match analyze_body reference_images current_img api_key with
  | inr result => (Some result, [])
  | inl e => (None, [error_message e])
  end.

(** Lines 292 to 301, once the button is pressed: the new session state
    and the error messages shown.  [reference_images] is [None] when the
    files could not be loaded; the dictionary, which has five keys, is
    true in a test. *)
Definition analyze_button (reference_images : option (list Image))
           (api_key : string) (st : SessionState Image)
  : SessionState Image * list string :=
  match current_image st with
  | None => (st, [])
  | Some current_img =>
      match reference_images with
      | None | Some [] => (st, [])
      | Some refs =>
          match analyze_progress_with_gpt4 refs current_img api_key with
          | (Some result, shown) =>
              (mkSession (current_image st) (Some result) (captured_frame st),
               shown)
          | (None, shown) => (st, shown)
          end
      end
  end.

End Analyzer.

(** ** Notions used to state the properties *)

(** The four prefixes recognised by the scan. *)
Definition PROGRESS : string := "PROGRESS:".
Definition COMPLETED_PARTS : string := "COMPLETED_PARTS:".
Definition MISSING_PARTS : string := "MISSING_PARTS:".
Definition NOTES : string := "NOTES:".

(** The lines of a reply, in order. *)
Definition lines_of (text : string) : list string := Py.split Py.LF text.

(** The lines of a reply that begin with [prefix], in order. *)
Definition lines_with (prefix : string) (text : string) : list string :=
  filter (Py.startswith prefix) (lines_of text).

(** No line of [lines] begins with [prefix]. *)
Definition none_starts (prefix : string) (lines : list string) : Prop :=
  Forall (fun l => Py.startswith prefix l = false) lines.

(** The value the code derives from one [PROGRESS:] line. *)
Definition derived_progress (line : string) : Z :=
  match Py.int_ (progress_str line) with
  | inr n => n
  | inl _ => 0%Z
  end.

(** The text the code derives from one line that begins with [prefix]. *)
Definition derived_text (prefix line : string) : string :=
  Py.strip (Py.replace prefix "" line).

(** The value of a line as the specification words it: the line without
    its leading prefix, white space trimmed. *)
Definition stripped_value (prefix line : string) : string :=
  Py.strip (Py.drop (String.length prefix) line).

(** A variable that each element accepted by [hit] overwrites. *)
Definition overwrite {A B : Type} (hit : A -> bool) (val : A -> B)
  (b : B) (a : A) : B :=
  if hit a then val a else b.

(** The scan of one line, field by field. *)
Definition step (v : Fields) (line : string) : Fields :=
  mkFields
    (if Py.startswith PROGRESS line then derived_progress line
     else progress_percent v)
    (if Py.startswith COMPLETED_PARTS line
     then derived_text COMPLETED_PARTS line else f_completed v)
    (if Py.startswith MISSING_PARTS line
     then derived_text MISSING_PARTS line else f_missing v)
    (if Py.startswith NOTES line
     then derived_text NOTES line else f_notes v).

(** The integer written on the last [PROGRESS:] line of a reply, and 0
    when there is no such line or when [int] rejects what it holds. *)
Definition last_written_progress (text : string) : Z :=
  last (map derived_progress (lines_with PROGRESS text)) 0%Z.

(** The prefix occurs again in the line after its leading occurrence. *)
Definition recurs (prefix line : string) : bool :=
  Py.contains prefix (Py.drop (String.length prefix) line).

(** The integer a text denotes, and 0 when [int] rejects it. *)
Definition int_or_zero (s : string) : Z :=
  match Py.int_ s with
  | inr n => n
  | inl _ => 0%Z
  end.

(** The reply used as the end-to-end example. *)
Definition stub_reply : string :=
"PROGRESS: 45%
COMPLETED_PARTS: base plate
MISSING_PARTS: roof
NOTES: good start".

(** A reply whose [PROGRESS:] line holds no number. *)
Definition reply_unknown : string :=
"PROGRESS: unknown%
COMPLETED_PARTS: base plate
MISSING_PARTS: roof
NOTES: good start".

(** A reply whose [COMPLETED_PARTS:] line repeats its prefix. *)
Definition reply_repeated : string :=
"PROGRESS: 45%
COMPLETED_PARTS: base COMPLETED_PARTS: roof
MISSING_PARTS: roof
NOTES: good start".

(** A reply with two [PROGRESS:] lines. *)
Definition reply_twice : string :=
"PROGRESS: 10%
NOTES: halfway
PROGRESS: 90%".

(** The first claim of the specification read on one reply: with exactly
    one line per prefix, the text fields are the stripped values of their
    lines and the numeric field is the integer that the stripped value of
    the [PROGRESS:] line denotes once [%] is removed. *)
Definition fields_equal_stripped_values (text : string) : Prop :=
  forall lp lc lm ln,
    lines_with PROGRESS text = [lp] ->
    lines_with COMPLETED_PARTS text = [lc] ->
    lines_with MISSING_PARTS text = [lm] ->
    lines_with NOTES text = [ln] ->
    exists r,
      parse_response text = inr r
      /\ Py.int_ (Py.replace "%" "" (stripped_value PROGRESS lp)) = inr (progress r)
      /\ completed r = stripped_value COMPLETED_PARTS lc
      /\ missing r = stripped_value MISSING_PARTS lm
      /\ notes r = stripped_value NOTES ln
      /\ raw_response r = text.




(** A text label followed by an image as an inline data URI read in high
    detail; [jpeg] is the JPEG stream of the image. *)
Definition labelled_image (label : string) (jpeg : list byte)
  : list ContentPart :=
  [ text_part label;
    image_url_part
      ("data:image/jpeg;base64," ++ string_of_list_byte (Base64.b64encode jpeg))
      "high" ].

(** The content of the message as the specification lists it: the
    instruction, the reference images numbered from 1 in the given order,
    then the current image. *)
Definition expected_content (ref_jpegs : list (list byte))
  (current_jpeg : list byte) : list ContentPart :=
  text_part instruction
  :: flat_map (fun '(i, jpeg) => labelled_image (reference_label i) jpeg)
       (combine (seq 1 (List.length ref_jpegs)) ref_jpegs)
  ++ labelled_image current_label current_jpeg.

(** The payload of a data URI built by [data_uri]. *)
Definition uri_payload (uri : string) : string :=
  Py.drop (String.length "data:image/jpeg;base64,") uri.

(** ** A concrete setting for the examples *)

Module Demo.

(** An image is given by its JPEG stream, which the codec returns. *)
Definition Image : Type := list byte.
Definition save_jpeg (image : Image) : Exc (list byte) := inr image.

(** A codec that refuses every image. *)
Definition save_fails (image : Image) : Exc (list byte) :=
  inl (mkExc "OSError" "cannot write mode RGBA as JPEG").

Definition Client : Type := string.
Definition OpenAI (api_key : string) : Exc Client := inr api_key.

(** A service that answers every request with [text]. *)
Definition replying (text : string) (client : Client) (request : ChatRequest)
  : Exc ChatCompletion :=
  inr (mkCompletion [mkChoice (Some text)]).

(** A service that cannot be reached. *)
Definition ConnectionError : PyException :=
  mkExc "APIConnectionError" "Connection error.".

Definition unreachable (client : Client) (request : ChatRequest)
  : Exc ChatCompletion :=
  inl ConnectionError.

Definition front : Image := list_byte_of_string "front".
Definition side : Image := list_byte_of_string "side".
Definition top : Image := list_byte_of_string "top".
Definition current : Image := list_byte_of_string "current".

(** A session with a captured image and an earlier result. *)
Definition earlier_result : AnalysisResult :=
  mkResult 30 "base" "walls and roof" "" "PROGRESS: 30%".

Definition session : SessionState Image :=
  mkSession (Some current) (Some earlier_result) None.

End Demo.

From Stdlib Require Import Numbers.DecimalNat.

(** ** Further notions on texts *)

Definition CR : ascii := "013"%char.

(** [sep.join(pieces)] *)
Fixpoint str_join (sep : string) (pieces : list string) : string :=
  match pieces with
  | [] => EmptyString
  | piece :: rest =>
      match rest with
      | [] => piece
      | _ => piece ++ sep ++ str_join sep rest
      end
  end.

(** [c in s] for one character *)
Fixpoint has_char (c : ascii) (s : string) : bool :=
  match s with
  | EmptyString => false
  | String x s' => Ascii.eqb x c || has_char c s'
  end.

(** Some line of the reply begins with [prefix]. *)
Definition has_line (prefix text : string) : bool :=
  existsb (Py.startswith prefix) (lines_of text).

(** Two replies one after the other, on separate lines. *)
Definition then_reply (first second : string) : string :=
  first ++ String Py.LF second.

(** The four fields of a parsed reply. *)
Definition fields_of (r : AnalysisResult) : Fields :=
  mkFields (progress r) (completed r) (missing r) (notes r).

(** [line] is [l], possibly followed by one white space character, as the
    carriage return of a reply with CR LF line ends. *)
Definition same_but_trailing_space (line l : string) : Prop :=
  line = l \/ exists c, Py.isspace c = true /\ line = (l ++ String c "")%string.

(** The decimal digits of [d] as a text. *)
Definition digits_text (d : Decimal.uint) : string :=
  NilEmpty.string_of_uint d.

(** A reply written in the format that the instruction asks for. *)
Definition formatted_reply (percent : nat) (done todo remarks : string)
  : string :=
  "PROGRESS: " ++ format_int percent ++ "%"
  ++ String Py.LF ("COMPLETED_PARTS: " ++ done
  ++ String Py.LF ("MISSING_PARTS: " ++ todo
  ++ String Py.LF ("NOTES: " ++ remarks))).

(** A description that fits on the line of [prefix]: one line, trimmed,
    in which the prefix does not occur. *)
Definition plain_value (prefix value : string) : Prop :=
  has_char Py.LF value = false
  /\ Py.strip value = value
  /\ Py.contains prefix value = false.

(** The characters that base64 text may hold. *)
Definition base64_char (c : byte) : Prop :=
  In c Base64.table_b2a_base64 \/ c = Base64.BASE64_PAD.

(** ** The rest of the page *)

(** The paths of the reference images. *)
Definition REFERENCE_IMAGES : list string :=
  [ "images/reference_1.jpg"; "images/reference_2.jpg";
    "images/reference_3.jpg" ].

Section Page.

Variable Image : Type.

(** [Image.open] on a path, and on a file given by [st.file_uploader] or
    [st.camera_input]. *)
Variable open_path : string -> Exc Image.
Variable Upload : Type.
Variable open_upload : Upload -> Exc Image.

(** The loop of [load_reference_images] on the list [images] built so far:
    the first path that cannot be opened ends it with [None]. *)
Fixpoint load_images (paths : list string) (images : list Image)
  : option (list Image) :=
  match paths with
  | [] => Some images
  | img_path :: rest =>
      match open_path img_path with
      | inr img => load_images rest (images ++ [img])
      | inl _ => None
      end
  end.

Definition load_reference_images : option (list Image) :=
  load_images REFERENCE_IMAGES [].

(** Lines 219 to 247: the value of [reference_images] once the page has
    shown the references or, without them, the three upload slots.  A list
    is true in a test when it is not empty. *)
Definition reference_images_of_page (ref1 ref2 ref3 : option Upload)
  : Exc (option (list Image)) :=
  let reference_images := load_reference_images in
  match reference_images with
  | Some (_ :: _) => ret reference_images
  | _ =>
      match ref1, ref2, ref3 with
      | Some file1, Some file2, Some file3 =>
          img1 <- open_upload file1 ;;
          img2 <- open_upload file2 ;;
          img3 <- open_upload file3 ;;
          ret (Some [img1; img2; img3])
      | _, _, _ => ret reference_images
      end
  end.




End Page.

(** *** [VideoProcessor] *)

Section Video.

(** A frame of the stream and its pixel array, with the conversions
    [frame.to_ndarray(format="bgr24")] and
    [av.VideoFrame.from_ndarray(img, format="bgr24")]. *)
Variable Frame NdArray : Type.
Variable to_ndarray : Frame -> Exc NdArray.
Variable from_ndarray : NdArray -> Exc Frame.

Record VideoProcessor : Type := mkProcessor {
  frame_to_capture : option NdArray
}.

(** [__init__] *)
Definition VideoProcessor_init : VideoProcessor := mkProcessor None.

(** [recv]: the processor after the call and what the call returns. *)
Definition recv (self : VideoProcessor) (frame : Frame)
  : VideoProcessor * Exc Frame :=
  match to_ndarray frame with
  | inl e => (self, inl e)
  | inr img => (mkProcessor (Some img), from_ndarray img)
  end.

(** The processor after a run of frames. *)
Definition recv_all (self : VideoProcessor) (frames : list Frame)
  : VideoProcessor :=
  fold_left (fun p frame => fst (recv p frame)) frames self.

(** The pixel arrays of the frames that could be converted, in order. *)
Definition converted (frames : list Frame) : list NdArray :=
  flat_map (fun frame => match to_ndarray frame with
                         | inr img => [img]
                         | inl _ => []
                         end) frames.

End Video.

(** *** More of the concrete setting *)

Module DemoPage.

(** Only the first reference file is on disk. *)
Definition open_path (path : string) : Exc Demo.Image :=
  if String.eqb path "images/reference_1.jpg" then inr Demo.front
  else inl (mkExc "FileNotFoundError" path).

(** Every reference file is on disk. *)
Definition open_any (path : string) : Exc Demo.Image :=
  inr (list_byte_of_string path).

(** An uploaded file is given by its bytes. *)
Definition Upload : Type := list byte.
Definition open_upload (file : Upload) : Exc Demo.Image := inr file.

(** An image that the codec refuses, next to those it writes. *)
Definition save_unless_empty (image : Demo.Image) : Exc (list byte) :=
  match image with
  | [] => inl (mkExc "OSError" "cannot write empty image as JPEG")
  | _ => inr image
  end.

End DemoPage.

(** * Properties *)

(** ** The built-ins on examples *)

Example split_ex : Py.split Py.LF "a
b

c" = ["a"; "b"; ""; "c"].
Proof. reflexivity. Qed.

Example split_empty : Py.split Py.LF "" = [""].
Proof. reflexivity. Qed.

Example replace_ex : Py.replace "ab" "-" "abcabab." = "-c--.".
Proof. reflexivity. Qed.

Example replace_overlap : Py.replace "aa" "" "aaa" = "a".
Proof. reflexivity. Qed.

Example replace_empty_old : Py.replace "" "-" "abc" = "-a-b-c-".
Proof. reflexivity. Qed.

Example strip_ex : Py.strip "  a b	 " = "a b".
Proof. reflexivity. Qed.

Example int_ex1 : Py.int_ " +1_000 " = inr 1000%Z.
Proof. reflexivity. Qed.

Example int_ex2 : Py.int_ "-45" = inr (-45)%Z.
Proof. reflexivity. Qed.

Example int_ex3 : Py.int_ "" = inl (Py.ValueError "").
Proof. reflexivity. Qed.

Example int_ex4 : Py.int_ "1__0" = inl (Py.ValueError "1__0").
Proof. reflexivity. Qed.

Example int_ex5 : Py.int_ "- 5" = inl (Py.ValueError "- 5").
Proof. reflexivity. Qed.

Example int_ex6 : Py.int_ "4.5" = inl (Py.ValueError "4.5").
Proof. reflexivity. Qed.

Example int_ex7 : Py.int_ "_1" = inl (Py.ValueError "_1").
Proof. reflexivity. Qed.

Example int_ex8 : Py.int_ "1_" = inl (Py.ValueError "1_").
Proof. reflexivity. Qed.

(** [str.strip] removes the separator US, which [int] does not accept. *)
Example int_ex9 :
  Py.strip (String "031" "12") = "12"
  /\ Py.int_ (String "031" "12") = inl (Py.ValueError (String "031" "12"))
  /\ Py.int_ (String "160" "12") = inr 12%Z.
Proof. repeat split. Qed.

Example b64encode_Man :
  string_of_list_byte (Base64.b64encode (list_byte_of_string "Man")) = "TWFu".
Proof. reflexivity. Qed.

Example b64encode_Ma :
  string_of_list_byte (Base64.b64encode (list_byte_of_string "Ma")) = "TWE=".
Proof. reflexivity. Qed.

Example b64encode_M :
  string_of_list_byte (Base64.b64encode (list_byte_of_string "M")) = "TQ==".
Proof. reflexivity. Qed.

Example b64decode_ex :
  Base64.b64decode "TWFuTQ==" = Some (list_byte_of_string "ManM").
Proof. reflexivity. Qed.

(** ** Facts on the string methods *)

Lemma startswith_nonempty a p s :
  Py.startswith (String a p) s = true -> exists s', s = String a s'.
Proof.
  destruct s as [|b s']; simpl; [discriminate|].
  destruct (ascii_dec a b) as [->|]; [eauto | discriminate].
Qed.

Lemma startswith_drop p : forall s,
  Py.startswith p s = true -> s = (p ++ Py.drop (String.length p) s)%string.
Proof.
  induction p as [|a p IH]; intros s H; [reflexivity|].
  destruct s as [|b s']; simpl in H; [discriminate|].
  destruct (ascii_dec a b) as [->|]; [|discriminate].
  simpl. f_equal. apply IH, H.
Qed.

Lemma replace_from_skip old new : forall s k,
  Py.replace_from old new k s = Py.replace_from old new 0 (Py.drop k s).
Proof.
  induction s as [|c s IH]; intros [|k]; try reflexivity.
  simpl Py.drop. rewrite <- IH. reflexivity.
Qed.

(** An occurrence at the head is replaced and the scan goes on after it. *)
Lemma replace_head a p new s :
  Py.startswith (String a p) s = true ->
  Py.replace (String a p) new s
  = (new ++ Py.replace (String a p) new (Py.drop (String.length (String a p)) s))%string.
Proof.
  intros H. destruct (startswith_nonempty _ _ _ H) as [s' ->].
  unfold Py.replace. cbn [Py.replace_from]. rewrite H.
  rewrite replace_from_skip. simpl. rewrite Nat.sub_0_r. reflexivity.
Qed.

(** Elsewhere the first character is kept and the scan goes on. *)
Lemma replace_skip a p new c s :
  Py.startswith (String a p) (String c s) = false ->
  Py.replace (String a p) new (String c s)
  = String c (Py.replace (String a p) new s).
Proof.
  intros H. unfold Py.replace. cbn [Py.replace_from]. rewrite H. reflexivity.
Qed.

(** Where [old] does not occur, nothing is replaced. *)
Lemma replace_absent a p new : forall s,
  Py.contains (String a p) s = false -> Py.replace (String a p) new s = s.
Proof.
  unfold Py.replace. induction s as [|c s IH]; intros H; [reflexivity|].
  cbn [Py.contains] in H. apply orb_false_iff in H as [H1 H2].
  cbn [Py.replace_from]. rewrite H1, IH by assumption. reflexivity.
Qed.

(** The code's way of removing a prefix agrees with the specification's
    on the lines in which the prefix does not occur again. *)
Lemma derived_text_stripped prefix line :
  prefix <> "" ->
  Py.startswith prefix line = true ->
  recurs prefix line = false ->
  derived_text prefix line = stripped_value prefix line.
Proof.
  destruct prefix as [|a p]; [congruence|]. intros _ H1 H2.
  unfold derived_text, stripped_value.
  rewrite replace_head by assumption. rewrite replace_absent by assumption.
  reflexivity.
Qed.

(** ** The scan, field by field *)

Lemma parse_progress_returns line :
  parse_progress line = inr (derived_progress line).
Proof.
  unfold parse_progress, derived_progress, try_except.
  destruct (Py.int_ (progress_str line)); reflexivity.
Qed.

(** The prefixes start with different letters: a line begins with at most
    one of them, and the [elif] chain is a choice by prefix. *)
Lemma scan_line_step v line : scan_line v line = inr (step v line).
Proof.
  unfold scan_line, step, PROGRESS, COMPLETED_PARTS, MISSING_PARTS, NOTES.
  destruct (Py.startswith "PROGRESS:" line) eqn:HP.
  { rewrite parse_progress_returns.
    destruct (startswith_nonempty _ _ _ HP) as [s' ->]. reflexivity. }
  destruct (Py.startswith "COMPLETED_PARTS:" line) eqn:HC.
  { destruct (startswith_nonempty _ _ _ HC) as [s' ->]. reflexivity. }
  destruct (Py.startswith "MISSING_PARTS:" line) eqn:HM.
  { destruct (startswith_nonempty _ _ _ HM) as [s' ->]. reflexivity. }
  destruct (Py.startswith "NOTES:" line) eqn:HN; [reflexivity|].
  destruct v; reflexivity.
Qed.

Lemma scan_lines_fold : forall lines v,
  scan_lines lines v = inr (fold_left step lines v).
Proof.
  induction lines as [|l lines IH]; intros v; [reflexivity|].
  simpl. rewrite scan_line_step. simpl. apply IH.
Qed.

Lemma parse_response_fold text :
  parse_response text =
  inr (let v := fold_left step (lines_of text) initial_fields in
       mkResult (progress_percent v) (f_completed v) (f_missing v) (f_notes v)
         text).
Proof.
  unfold parse_response. rewrite scan_lines_fold. reflexivity.
Qed.

(** A variable that each matching element overwrites holds, after the
    loop, what the last matching element gave. *)
Section LastWins.
Context {A B : Type} (hit : A -> bool) (val : A -> B).

Lemma last_cons (x : B) l d : last (x :: l) d = last l x.
Proof.
  revert x d. induction l as [|y l IH]; intros x d; [reflexivity|].
  change (last (x :: y :: l) d) with (last (y :: l) d).
  rewrite (IH y d), (IH y x). reflexivity.
Qed.

Lemma overwrite_fold : forall l b,
  fold_left (overwrite hit val) l b = last (map val (filter hit l)) b.
Proof.
  induction l as [|a l IH]; intros b; [reflexivity|].
  simpl fold_left. rewrite IH. unfold overwrite. simpl filter.
  destruct (hit a); [|reflexivity].
  simpl map. rewrite last_cons. reflexivity.
Qed.

Lemma filter_none l :
  Forall (fun a => hit a = false) l -> filter hit l = [].
Proof.
  induction 1 as [|a l Ha _ IH]; [reflexivity|].
  simpl. rewrite Ha. exact IH.
Qed.

Lemma filter_last_hit l1 a l2 :
  hit a = true -> Forall (fun a => hit a = false) l2 ->
  filter hit (l1 ++ a :: l2) = filter hit l1 ++ [a].
Proof.
  intros Ha H2. rewrite filter_app. simpl. rewrite Ha.
  rewrite (filter_none l2 H2). reflexivity.
Qed.
End LastWins.

Lemma fold_progress : forall lines v,
  progress_percent (fold_left step lines v)
  = fold_left (overwrite (Py.startswith PROGRESS) derived_progress) lines
      (progress_percent v).
Proof. induction lines as [|l lines IH]; intros v; [reflexivity|]. simpl. rewrite IH. reflexivity. Qed.

Lemma fold_completed : forall lines v,
  f_completed (fold_left step lines v)
  = fold_left (overwrite (Py.startswith COMPLETED_PARTS)
                 (derived_text COMPLETED_PARTS)) lines (f_completed v).
Proof. induction lines as [|l lines IH]; intros v; [reflexivity|]. simpl. rewrite IH. reflexivity. Qed.

Lemma fold_missing : forall lines v,
  f_missing (fold_left step lines v)
  = fold_left (overwrite (Py.startswith MISSING_PARTS)
                 (derived_text MISSING_PARTS)) lines (f_missing v).
Proof. induction lines as [|l lines IH]; intros v; [reflexivity|]. simpl. rewrite IH. reflexivity. Qed.

Lemma fold_notes : forall lines v,
  f_notes (fold_left step lines v)
  = fold_left (overwrite (Py.startswith NOTES) (derived_text NOTES)) lines
      (f_notes v).
Proof. induction lines as [|l lines IH]; intros v; [reflexivity|]. simpl. rewrite IH. reflexivity. Qed.

(** The parsed reply in closed form: every field is what the last line
    with its prefix gives, or its initial value. *)
Lemma parse_response_closed text :
  parse_response text =
  inr (mkResult
         (last_written_progress text)
         (last (map (derived_text COMPLETED_PARTS) (lines_with COMPLETED_PARTS text)) "")
         (last (map (derived_text MISSING_PARTS) (lines_with MISSING_PARTS text)) "")
         (last (map (derived_text NOTES) (lines_with NOTES text)) "")
         text).
Proof.
  rewrite parse_response_fold. cbv zeta.
  rewrite fold_progress, fold_completed, fold_missing, fold_notes.
  rewrite !overwrite_fold. reflexivity.
Qed.

Lemma lines_with_starts prefix text l :
  In l (lines_with prefix text) -> Py.startswith prefix l = true.
Proof. unfold lines_with. intros H. apply filter_In in H. apply H. Qed.

Lemma derived_progress_stripped line :
  Py.startswith PROGRESS line = true ->
  recurs PROGRESS line = false ->
  derived_progress line
  = int_or_zero (Py.replace "%" "" (stripped_value PROGRESS line)).
Proof.
  intros H1 H2. unfold derived_progress, int_or_zero, progress_str.
  change (Py.strip (Py.replace "PROGRESS:" "" line))
    with (derived_text PROGRESS line).
  rewrite (derived_text_stripped PROGRESS line) by (assumption || discriminate).
  reflexivity.
Qed.

(** ** The parsed reply *)

(** C1, as amended.  For every reply with exactly one line beginning with
    each of the four prefixes, none of these lines holding its own prefix a
    second time, the three text fields are the lines' values with the
    prefix stripped and white space trimmed, the numeric field is the
    integer that the value of the [PROGRESS:] line denotes once every [%] is
    removed (0 when it denotes none), and [raw_response] is the reply.  In
    particular the stub reply gives 45, "base plate", "roof" and
    "good start". *)
Theorem one_line_per_field_parsed :
  (forall text lp lc lm ln,
      lines_with PROGRESS text = [lp] ->
      lines_with COMPLETED_PARTS text = [lc] ->
      lines_with MISSING_PARTS text = [lm] ->
      lines_with NOTES text = [ln] ->
      recurs PROGRESS lp = false ->
      recurs COMPLETED_PARTS lc = false ->
      recurs MISSING_PARTS lm = false ->
      recurs NOTES ln = false ->
      parse_response text =
      inr (mkResult
             (int_or_zero (Py.replace "%" "" (stripped_value PROGRESS lp)))
             (stripped_value COMPLETED_PARTS lc)
             (stripped_value MISSING_PARTS lm)
             (stripped_value NOTES ln)
             text))
  /\ parse_response stub_reply
     = inr (mkResult 45 "base plate" "roof" "good start" stub_reply).
Proof.
  split; [|reflexivity].
  intros text lp lc lm ln Hp Hc Hm Hn Rp Rc Rm Rn.
  rewrite parse_response_closed. unfold last_written_progress.
  rewrite Hp, Hc, Hm, Hn. cbn [map last].
  assert (Sp : Py.startswith PROGRESS lp = true)
    by (apply (lines_with_starts _ text); rewrite Hp; left; reflexivity).
  assert (Sc : Py.startswith COMPLETED_PARTS lc = true)
    by (apply (lines_with_starts _ text); rewrite Hc; left; reflexivity).
  assert (Sm : Py.startswith MISSING_PARTS lm = true)
    by (apply (lines_with_starts _ text); rewrite Hm; left; reflexivity).
  assert (Sn : Py.startswith NOTES ln = true)
    by (apply (lines_with_starts _ text); rewrite Hn; left; reflexivity).
  rewrite (derived_progress_stripped lp Sp Rp).
  rewrite (derived_text_stripped COMPLETED_PARTS lc) by (assumption || discriminate).
  rewrite (derived_text_stripped MISSING_PARTS lm) by (assumption || discriminate).
  rewrite (derived_text_stripped NOTES ln) by (assumption || discriminate).
  reflexivity.
Qed.

Lemma one_line_per_field_parsed_witness :
  lines_with PROGRESS stub_reply = ["PROGRESS: 45%"]
  /\ recurs NOTES "NOTES: good start" = false
  /\ parse_response stub_reply
     = inr (mkResult
              (int_or_zero (Py.replace "%" "" (stripped_value PROGRESS "PROGRESS: 45%")))
              (stripped_value COMPLETED_PARTS "COMPLETED_PARTS: base plate")
              (stripped_value MISSING_PARTS "MISSING_PARTS: roof")
              (stripped_value NOTES "NOTES: good start")
              stub_reply).
Proof.
  split; [reflexivity|]. split; [reflexivity|].
  apply (proj1 one_line_per_field_parsed stub_reply
           "PROGRESS: 45%" "COMPLETED_PARTS: base plate"
           "MISSING_PARTS: roof" "NOTES: good start"); reflexivity.
Defined.

(** The first claim fails as it is worded: on a [PROGRESS:] line that holds
    no number the numeric field is 0, and a prefix that occurs again in its
    line is removed there too. *)
Lemma stripped_values_counterexample :
  ~ fields_equal_stripped_values reply_unknown
  /\ ~ fields_equal_stripped_values reply_repeated.
Proof.
  split; intros H.
  - destruct (H "PROGRESS: unknown%" "COMPLETED_PARTS: base plate"
                "MISSING_PARTS: roof" "NOTES: good start")
      as (r & _ & Hint & _); try reflexivity.
    vm_compute in Hint. discriminate Hint.
  - destruct (H "PROGRESS: 45%" "COMPLETED_PARTS: base COMPLETED_PARTS: roof"
                "MISSING_PARTS: roof" "NOTES: good start")
      as (r & Hr & _ & Hc & _); try reflexivity.
    vm_compute in Hr. injection Hr as <-. vm_compute in Hc. discriminate Hc.
Qed.



(** C3.  In every reply the progress retained is the one derived from the
    last line beginning with [PROGRESS:], however many such lines come
    before it; the reply with 10% and later 90% parses to 90. *)
Theorem last_progress_line_wins :
  (forall text l1 line l2,
      lines_of text = l1 ++ line :: l2 ->
      Py.startswith PROGRESS line = true ->
      none_starts PROGRESS l2 ->
      exists r, parse_response text = inr r
                /\ parse_progress line = inr (progress r))
  /\ (exists r, parse_response reply_twice = inr r /\ progress r = 90%Z).
Proof.
  split.
  - intros text l1 line l2 Hl Hs Hn.
    rewrite parse_response_closed. eexists. split; [reflexivity|].
    cbn [progress]. rewrite parse_progress_returns. f_equal.
    unfold last_written_progress, lines_with. rewrite Hl.
    rewrite (filter_last_hit _ l1 line l2 Hs Hn).
    rewrite map_app. cbn [map]. rewrite last_last. reflexivity.
  - eexists. split; reflexivity.
Qed.

Lemma last_progress_line_wins_witness :
  lines_of reply_twice = ["PROGRESS: 10%"; "NOTES: halfway"] ++ "PROGRESS: 90%" :: []
  /\ exists r, parse_response reply_twice = inr r
               /\ parse_progress "PROGRESS: 90%" = inr (progress r).
Proof.
  split; [reflexivity|].
  apply (proj1 last_progress_line_wins reply_twice
           ["PROGRESS: 10%"; "NOTES: halfway"] "PROGRESS: 90%" []).
  - reflexivity.
  - reflexivity.
  - constructor.
Defined.





(** C5 fails on the code.  [str.replace] removes every occurrence of the
    prefix, not only the leading one: a prefix that occurs again in the
    line is lost from the stored text, where the line without its leading
    prefix keeps it. *)
Theorem repeated_prefix_is_removed :
  parse_response "COMPLETED_PARTS: base COMPLETED_PARTS: roof"
  = inr (mkResult 0 "base  roof" "" ""
           "COMPLETED_PARTS: base COMPLETED_PARTS: roof")
  /\ stripped_value COMPLETED_PARTS "COMPLETED_PARTS: base COMPLETED_PARTS: roof"
     = "base COMPLETED_PARTS: roof"
  /\ parse_response "MISSING_PARTS: see MISSING_PARTS: above"
     = inr (mkResult 0 "" "see  above" ""
              "MISSING_PARTS: see MISSING_PARTS: above")
  /\ stripped_value MISSING_PARTS "MISSING_PARTS: see MISSING_PARTS: above"
     = "see MISSING_PARTS: above"
  /\ parse_response "NOTES: the NOTES: field"
     = inr (mkResult 0 "" "" "the  field" "NOTES: the NOTES: field")
  /\ stripped_value NOTES "NOTES: the NOTES: field" = "the NOTES: field".
Proof. repeat split. Qed.




(** ** Base64 *)

Module Base64Facts.
Import Base64.
Local Open Scope N_scope.

(** Every group of six bits is read back from its character. *)
Lemma a2b_b2a n : a2b (b2a n) = Some (N.land n 63).
Proof.
  unfold b2a.
  assert (H : N.land n 63 < 64).
  { change 63 with (N.ones 6). rewrite N.land_ones.
    apply N.mod_lt. discriminate. }
  revert H. generalize (N.land n 63). intros m H.
  destruct m as [|p]; [reflexivity|].
  do 6 (destruct p as [p|p|]; try reflexivity); exfalso; lia.
Qed.

Lemma a2b_pad : a2b BASE64_PAD = None.
Proof. reflexivity. Qed.

(** The bits of one byte: what each mask and shift of the coder keeps. *)
Lemma mask_hi6 b : N.land (N.shiftr (code b) 2) 63 = N.shiftr (code b) 2.
Proof. destruct b; reflexivity. Qed.
Lemma mask_lo2 b :
  N.land (N.shiftl (N.land (code b) 3) 4) 63 = N.shiftl (N.land (code b) 3) 4.
Proof. destruct b; reflexivity. Qed.
Lemma mask_hi4 b : N.land (N.shiftr (code b) 4) 63 = N.shiftr (code b) 4.
Proof. destruct b; reflexivity. Qed.
Lemma mask_lo4 b :
  N.land (N.shiftl (N.land (code b) 15) 2) 63 = N.shiftl (N.land (code b) 15) 2.
Proof. destruct b; reflexivity. Qed.
Lemma mask_hi2 b : N.land (N.shiftr (code b) 6) 63 = N.shiftr (code b) 6.
Proof. destruct b; reflexivity. Qed.

Lemma lo2_back b : N.shiftr (N.shiftl (N.land (code b) 3) 4) 4 = N.land (code b) 3.
Proof. destruct b; reflexivity. Qed.
Lemma hi4_gone b : N.shiftr (N.shiftr (code b) 4) 4 = 0.
Proof. destruct b; reflexivity. Qed.
Lemma lo2_masked b : N.land (N.shiftl (N.land (code b) 3) 4) 15 = 0.
Proof. destruct b; reflexivity. Qed.
Lemma hi4_masked b : N.land (N.shiftr (code b) 4) 15 = N.shiftr (code b) 4.
Proof. destruct b; reflexivity. Qed.
Lemma lo4_back b : N.shiftr (N.shiftl (N.land (code b) 15) 2) 2 = N.land (code b) 15.
Proof. destruct b; reflexivity. Qed.
Lemma hi2_gone b : N.shiftr (N.shiftr (code b) 6) 2 = 0.
Proof. destruct b; reflexivity. Qed.
Lemma lo4_masked b : N.land (N.shiftl (N.land (code b) 15) 2) 3 = 0.
Proof. destruct b; reflexivity. Qed.
Lemma hi2_masked b : N.land (N.shiftr (code b) 6) 3 = N.shiftr (code b) 6.
Proof. destruct b; reflexivity. Qed.

Lemma join_6_2 b :
  N.lor (N.shiftl (N.shiftr (code b) 2) 2) (N.land (code b) 3) = code b.
Proof. destruct b; reflexivity. Qed.
Lemma join_4_4 b :
  N.lor (N.shiftl (N.shiftr (code b) 4) 4) (N.land (code b) 15) = code b.
Proof. destruct b; reflexivity. Qed.
Lemma join_2_6 b :
  N.lor (N.shiftl (N.shiftr (code b) 6) 6) (N.land (code b) 63) = code b.
Proof. destruct b; reflexivity. Qed.

Lemma of_code b : Byte.of_N (code b) = Some b.
Proof. apply Byte.of_to_N. Qed.

Create Rewrite HintDb b64.

#[local] Hint Rewrite
  N.land_lor_distr_l N.shiftr_lor
  mask_hi6 mask_lo2 mask_hi4 mask_lo4 mask_hi2
  lo2_back hi4_gone lo2_masked hi4_masked
  lo4_back hi2_gone lo4_masked hi2_masked
  N.lor_0_l N.lor_0_r
  join_6_2 join_4_4 join_2_6 of_code : b64.

Lemma list_ind3 {A} (P : list A -> Prop) :
  P [] -> (forall a, P [a]) -> (forall a b, P [a; b]) ->
  (forall a b c l, P l -> P (a :: b :: c :: l)) ->
  forall l, P l.
Proof.
  intros H0 H1 H2 H3 l.
  assert (H : P l /\ (forall a, P (a :: l)) /\ (forall a b, P (a :: b :: l))).
  { induction l as [|x l (IH0 & IH1 & IH2)]; [auto|].
    split; [apply IH1|]. split; [intros a; apply IH2|].
    intros a b. apply H3, IH0. }
  apply H.
Qed.

(** Decoding undoes encoding, whatever the bytes. *)
Lemma b64decode_b64encode : forall s, b64decode_bytes (b64encode s) = Some s.
Proof.
  induction s as [|b0|b0 b1|b0 b1 b2 s IH] using list_ind3.
  - reflexivity.
  - cbn [b64encode b64decode_bytes]. rewrite !a2b_b2a, a2b_pad.
    cbn [Byte.eqb andb]. unfold byte0. autorewrite with b64. reflexivity.
  - cbn [b64encode b64decode_bytes]. rewrite !a2b_b2a, a2b_pad.
    cbn [Byte.eqb]. unfold byte0, byte1. autorewrite with b64. reflexivity.
  - cbn [b64encode b64decode_bytes]. rewrite !a2b_b2a.
    unfold byte0, byte1, byte2. autorewrite with b64. rewrite IH. reflexivity.
Qed.

(** The characters of the encoding are those of the alphabet and [=]: all
    of them are ASCII. *)
Lemma b2a_ascii n : code (b2a n) < 128.
Proof.
  unfold b2a.
  assert (H : N.land n 63 < 64).
  { change 63 with (N.ones 6). rewrite N.land_ones.
    apply N.mod_lt. discriminate. }
  revert H. generalize (N.land n 63). intros m H.
  destruct m as [|p]; [reflexivity|].
  do 6 (destruct p as [p|p|]; try reflexivity); exfalso; lia.
Qed.

Lemma b64encode_ascii : forall s, Forall (fun c => code c < 128) (b64encode s).
Proof.
  assert (P : code BASE64_PAD < 128) by reflexivity.
  induction s as [|b0|b0 b1|b0 b1 b2 s IH] using list_ind3;
    cbn [b64encode]; repeat constructor; auto using b2a_ascii.
Qed.

End Base64Facts.

Lemma startswith_app p : forall r, Py.startswith p (p ++ r)%string = true.
Proof.
  induction p as [|a p IH]; intros r; [destruct r; reflexivity|].
  simpl. destruct (ascii_dec a a) as [_|N]; [apply IH | contradiction].
Qed.

Lemma append_assoc (a b c : string) :
  ((a ++ b) ++ c)%string = (a ++ (b ++ c))%string.
Proof. induction a as [|x a IH]; [reflexivity|]. simpl. rewrite IH. reflexivity. Qed.



Lemma uri_payload_data_uri s : uri_payload (data_uri s) = s.
Proof. reflexivity. Qed.

(** ** The analyzer *)

Section AnalyzerFacts.

Variable Image : Type.
Variable save_jpeg : Image -> Exc (list byte).
Variable Client : Type.
Variable OpenAI : string -> Exc Client.
Variable chat_completions_create : Client -> ChatRequest -> Exc ChatCompletion.

Local Abbreviation encode := (encode_image_to_base64 Image save_jpeg).
Local Abbreviation add_refs := (add_reference_images Image save_jpeg).
Local Abbreviation request_of := (build_request Image save_jpeg).
Local Abbreviation body :=
  (analyze_body Image save_jpeg Client OpenAI chat_completions_create).
Local Abbreviation analyze :=
  (analyze_progress_with_gpt4 Image save_jpeg Client OpenAI
     chat_completions_create).
Local Abbreviation button :=
  (analyze_button Image save_jpeg Client OpenAI chat_completions_create).

Lemma encode_returns image jpeg :
  save_jpeg image = inr jpeg ->
  encode image = inr (string_of_list_byte (Base64.b64encode jpeg)).
Proof. intros H. unfold encode_image_to_base64. rewrite H. reflexivity. Qed.

Lemma encode_raises image e : save_jpeg image = inl e -> encode image = inl e.
Proof. intros H. unfold encode_image_to_base64. rewrite H. reflexivity. Qed.

(** The loop appends, for each image, its label and its data URI. *)
Lemma add_reference_images_returns refs jpegs :
  Forall2 (fun img jpeg => save_jpeg img = inr jpeg) refs jpegs ->
  forall i content,
    add_refs i refs content
    = inr (content
           ++ flat_map (fun '(i, jpeg) => labelled_image (reference_label i) jpeg)
                (combine (seq i (List.length jpegs)) jpegs)).
Proof.
  induction 1 as [|img jpeg refs jpegs Himg _ IH]; intros i content.
  - simpl. rewrite app_nil_r. reflexivity.
  - cbn [add_reference_images]. rewrite (encode_returns _ _ Himg).
    cbn [bind]. rewrite IH. cbn [List.length seq combine flat_map].
    rewrite <- app_assoc. reflexivity.
Qed.


(** C9.  The encoder returns the base64 text of the JPEG stream of the
    image: decoding that text, alone or taken back from the data URI, gives
    the stream again byte for byte.  An image the codec refuses makes the
    encoder raise what the codec raised. *)
Theorem encode_then_decode :
  (forall image jpeg,
      save_jpeg image = inr jpeg ->
      exists s,
        encode image = inr s
        /\ s = string_of_list_byte (Base64.b64encode jpeg)
        /\ Base64.b64decode s = Some jpeg
        /\ Base64.b64decode (uri_payload (data_uri s)) = Some jpeg)
  /\ (forall image e, save_jpeg image = inl e -> encode image = inl e).
Proof.
  split.
  - intros image jpeg H. eexists. split; [apply encode_returns, H|].
    split; [reflexivity|]. rewrite uri_payload_data_uri.
    unfold Base64.b64decode. rewrite list_byte_of_string_of_list_byte.
    split; apply Base64Facts.b64decode_b64encode.
  - apply encode_raises.
Qed.

Lemma body_returns refs cur key client request response text :
  OpenAI key = inr client ->
  request_of refs cur = inr request ->
  chat_completions_create client request = inr response ->
  result_text_of response = inr text ->
  body refs cur key = parse_response text.
Proof.
  intros Hc Hr Hs Ht. unfold analyze_body.
  rewrite Hc. cbn [bind]. rewrite Hr. cbn [bind]. rewrite Hs. cbn [bind].
  rewrite Ht. reflexivity.
Qed.

(** C6.  Whatever the reply holds, the parse keeps it whole as
    [raw_response]; and whenever the service answers with a text, the
    analyzer returns a result whose [raw_response] is that text. *)
Theorem raw_response_is_reply :
  (forall text, exists r, parse_response text = inr r /\ raw_response r = text)
  /\ (forall refs cur key client request response text,
        OpenAI key = inr client ->
        request_of refs cur = inr request ->
        chat_completions_create client request = inr response ->
        result_text_of response = inr text ->
        exists r, analyze refs cur key = (Some r, [])
                  /\ raw_response r = text).
Proof.
  split.
  - intros text. rewrite parse_response_closed. eexists. split; reflexivity.
  - intros refs cur key client request response text Hc Hr Hs Ht.
    unfold analyze_progress_with_gpt4.
    rewrite (body_returns _ _ _ _ _ _ _ Hc Hr Hs Ht).
    rewrite parse_response_closed. eexists. split; reflexivity.
Qed.

(** C7.  When the body of the analysis raises, the function shows one error
    message and returns [None], and the button leaves the session state as
    it was: the earlier result and the captured image stay, nothing is
    stored.  The body raises when the client cannot be made, when the call
    fails, and when the answer has no choice or no text.  In no case does
    the button change the captured image. *)
Theorem failure_keeps_state :
  (forall refs cur key e,
      body refs cur key = inl e ->
      analyze refs cur key = (None, [error_message e])
      /\ forall st,
          current_image st = Some cur -> refs <> [] ->
          button (Some refs) key st = (st, [error_message e]))
  /\ (forall refs cur key e, OpenAI key = inl e -> body refs cur key = inl e)
  /\ (forall refs cur key client request e,
        OpenAI key = inr client ->
        request_of refs cur = inr request ->
        chat_completions_create client request = inl e ->
        body refs cur key = inl e)
  /\ (forall refs cur key client request response e,
        OpenAI key = inr client ->
        request_of refs cur = inr request ->
        chat_completions_create client request = inr response ->
        result_text_of response = inl e ->
        body refs cur key = inl e)
  /\ (forall refs_opt key st,
        current_image (fst (button refs_opt key st)) = current_image st
        /\ captured_frame (fst (button refs_opt key st)) = captured_frame st).
Proof.
  split; [|split; [|split; [|split]]].
  - intros refs cur key e Hb.
    assert (Ha : analyze refs cur key = (None, [error_message e]))
      by (unfold analyze_progress_with_gpt4; rewrite Hb; reflexivity).
    split; [exact Ha|]. intros st Hcur Hrefs. unfold analyze_button.
    rewrite Hcur. destruct refs as [|r refs]; [contradiction|].
    rewrite Ha. reflexivity.
  - intros refs cur key e H. unfold analyze_body. rewrite H. reflexivity.
  - intros refs cur key client request e Hc Hr Hs. unfold analyze_body.
    rewrite Hc. cbn [bind]. rewrite Hr. cbn [bind]. rewrite Hs. reflexivity.
  - intros refs cur key client request response e Hc Hr Hs Ht.
    unfold analyze_body.
    rewrite Hc. cbn [bind]. rewrite Hr. cbn [bind]. rewrite Hs. cbn [bind].
    rewrite Ht. reflexivity.
  - intros refs_opt key st. unfold analyze_button.
    destruct (current_image st) as [cur|] eqn:Hcur;
      [|cbn [fst]; rewrite Hcur; auto].
    destruct refs_opt as [[|r refs]|];
      try (cbn [fst]; rewrite Hcur; split; reflexivity).
    destruct (analyze (r :: refs) cur key) as [[result|] shown];
      cbn [fst current_image captured_frame]; rewrite ?Hcur; auto.
Qed.

End AnalyzerFacts.

(** ** The theorems on the analyzer at work *)


(** The content for three reference images, part by part. *)
Example expected_content_three :
  expected_content [Demo.front; Demo.side; Demo.top] Demo.current
  = [ text_part instruction;
      text_part "

Reference Image 1:";
      image_url_part "data:image/jpeg;base64,ZnJvbnQ=" "high";
      text_part "

Reference Image 2:";
      image_url_part "data:image/jpeg;base64,c2lkZQ==" "high";
      text_part "

Reference Image 3:";
      image_url_part "data:image/jpeg;base64,dG9w" "high";
      text_part "

User's Current Progress Image:";
      image_url_part "data:image/jpeg;base64,Y3VycmVudA==" "high" ].
Proof. reflexivity. Qed.

Lemma encode_then_decode_witness :
  Demo.save_jpeg Demo.current = inr Demo.current
  /\ exists s,
       encode_image_to_base64 Demo.Image Demo.save_jpeg Demo.current = inr s
       /\ s = string_of_list_byte (Base64.b64encode Demo.current)
       /\ Base64.b64decode s = Some Demo.current
       /\ Base64.b64decode (uri_payload (data_uri s)) = Some Demo.current.
Proof.
  split; [reflexivity|].
  exact (proj1 (encode_then_decode Demo.Image Demo.save_jpeg)
           Demo.current Demo.current eq_refl).
Defined.

Lemma raw_response_is_reply_witness :
  Demo.replying reply_unknown "key"
    (mkRequest "gpt-4o-mini"
       [mkMessage "user" (expected_content [Demo.front] Demo.current)] 500)
  = inr (mkCompletion [mkChoice (Some reply_unknown)])
  /\ exists r,
       analyze_progress_with_gpt4 Demo.Image Demo.save_jpeg Demo.Client
         Demo.OpenAI (Demo.replying reply_unknown) [Demo.front] Demo.current
         "key"
       = (Some r, [])
       /\ raw_response r = reply_unknown.
Proof.
  split; [reflexivity|].
  exact (proj2 (raw_response_is_reply Demo.Image Demo.save_jpeg Demo.Client
                  Demo.OpenAI (Demo.replying reply_unknown))
           [Demo.front] Demo.current "key" "key"
           (mkRequest "gpt-4o-mini"
              [mkMessage "user" (expected_content [Demo.front] Demo.current)]
              500)
           (mkCompletion [mkChoice (Some reply_unknown)]) reply_unknown
           eq_refl eq_refl eq_refl eq_refl).
Defined.

Lemma failure_keeps_state_witness :
  analyze_body Demo.Image Demo.save_jpeg Demo.Client Demo.OpenAI
    Demo.unreachable [Demo.front; Demo.side; Demo.top] Demo.current "key"
  = inl Demo.ConnectionError
  /\ analyze_progress_with_gpt4 Demo.Image Demo.save_jpeg Demo.Client
       Demo.OpenAI Demo.unreachable [Demo.front; Demo.side; Demo.top]
       Demo.current "key"
     = (None, ["Error analyzing images: Connection error."])
  /\ analyze_button Demo.Image Demo.save_jpeg Demo.Client Demo.OpenAI
       Demo.unreachable (Some [Demo.front; Demo.side; Demo.top]) "key"
       Demo.session
     = (Demo.session, ["Error analyzing images: Connection error."]).
Proof.
  split; [reflexivity|].
  destruct (proj1 (failure_keeps_state Demo.Image Demo.save_jpeg Demo.Client
                     Demo.OpenAI Demo.unreachable)
              [Demo.front; Demo.side; Demo.top] Demo.current "key"
              Demo.ConnectionError eq_refl) as [Ha Hb].
  split; [exact Ha|].
  apply Hb; [reflexivity | discriminate].
Defined.

(** A codec failure is reported in the same way. *)
Example codec_failure_reported :
  analyze_button Demo.Image Demo.save_fails Demo.Client Demo.OpenAI
    (Demo.replying stub_reply) (Some [Demo.front]) "key" Demo.session
  = (Demo.session, ["Error analyzing images: cannot write mode RGBA as JPEG"]).
Proof. reflexivity. Qed.

(** A reply that parses replaces the earlier result and keeps the image. *)
Example success_stores_result :
  analyze_button Demo.Image Demo.save_jpeg Demo.Client Demo.OpenAI
    (Demo.replying stub_reply) (Some [Demo.front]) "key" Demo.session
  = (mkSession (Some Demo.current)
       (Some (mkResult 45 "base plate" "roof" "good start" stub_reply)) None,
     []).
Proof. reflexivity. Qed.

(** * Further properties of the code *)

(** ** The lines of a reply *)

Lemma split_nonempty sep s : Py.split sep s <> [].
Proof.
  destruct s as [|c s]; simpl; [discriminate|].
  destruct (Ascii.eqb c sep); [discriminate|].
  destruct (Py.split sep s); discriminate.
Qed.

Lemma split_no_sep sep : forall s,
  Forall (fun piece => has_char sep piece = false) (Py.split sep s).
Proof.
  induction s as [|c s IH]; simpl; [repeat constructor|].
  destruct (Ascii.eqb c sep) eqn:E; [constructor; [reflexivity | exact IH]|].
  destruct (Py.split sep s) as [|piece pieces]; [repeat constructor; simpl; rewrite E; reflexivity|].
  inversion IH as [|? ? Hp Hps]; subst.
  constructor; [simpl; rewrite E, Hp; reflexivity | exact Hps].
Qed.

Lemma str_join_cons sep p q rest :
  str_join sep (p :: q :: rest) = (p ++ sep ++ str_join sep (q :: rest))%string.
Proof. reflexivity. Qed.

Lemma join_split sep : forall s,
  str_join (String sep "") (Py.split sep s) = s.
Proof.
  induction s as [|c s IH]; [reflexivity|].
  simpl Py.split. pose proof (split_nonempty sep s) as Hne.
  destruct (Py.split sep s) as [|piece pieces]; [contradiction|].
  destruct (Ascii.eqb c sep) eqn:E.
  - apply Ascii.eqb_eq in E. subst c.
    rewrite str_join_cons, IH. reflexivity.
  - destruct pieces as [|p ps].
    + simpl in *. rewrite IH. reflexivity.
    + rewrite str_join_cons in *. cbn [append]. cbn [append] in IH.
      rewrite IH. reflexivity.
Qed.

Lemma split_line sep : forall l rest,
  has_char sep l = false ->
  Py.split sep (l ++ String sep rest) = l :: Py.split sep rest.
Proof.
  induction l as [|c l IH]; intros rest H.
  - simpl. rewrite Ascii.eqb_refl. reflexivity.
  - simpl in H. apply orb_false_iff in H as [Hc Hl].
    simpl. rewrite Hc, (IH rest Hl). reflexivity.
Qed.

Lemma split_single sep : forall l,
  has_char sep l = false -> Py.split sep l = [l].
Proof.
  induction l as [|c l IH]; intros H; [reflexivity|].
  simpl in H. apply orb_false_iff in H as [Hc Hl].
  simpl. rewrite Hc, (IH Hl). reflexivity.
Qed.

Lemma split_then sep : forall a b,
  Py.split sep (a ++ String sep b) = Py.split sep a ++ Py.split sep b.
Proof.
  induction a as [|c a IH]; intros b.
  - simpl. rewrite Ascii.eqb_refl. reflexivity.
  - simpl. rewrite IH. destruct (Ascii.eqb c sep); [reflexivity|].
    pose proof (split_nonempty sep a) as Hne.
    destruct (Py.split sep a) as [|piece pieces]; [contradiction|].
    reflexivity.
Qed.

(** X1.  The scan sees the whole reply: its lines joined by line feeds are
    the reply, no line holds a line feed, and there is at least one line. *)
Theorem lines_cover_reply :
  forall text,
    str_join (String Py.LF "") (lines_of text) = text
    /\ Forall (fun line => has_char Py.LF line = false) (lines_of text)
    /\ lines_of text <> [].
Proof.
  intros text. unfold lines_of. split; [apply join_split|].
  split; [apply split_no_sep | apply split_nonempty].
Qed.

(** ** Replies one after the other *)

Lemma last_app_default {B} (l1 l2 : list B) d :
  last (l1 ++ l2) d = last l2 (last l1 d).
Proof.
  revert d. induction l1 as [|x l1 IH]; intros d; [reflexivity|].
  change ((x :: l1) ++ l2) with (x :: (l1 ++ l2)).
  rewrite !last_cons. apply IH.
Qed.

Lemma last_default {B} (l : list B) d d' : l <> [] -> last l d = last l d'.
Proof.
  destruct l as [|x l]; [contradiction|]. intros _.
  rewrite !last_cons. reflexivity.
Qed.

Lemma last_filter_app {A B} (hit : A -> bool) (val : A -> B) la lb d :
  last (map val (filter hit (la ++ lb))) d
  = if existsb hit lb then last (map val (filter hit lb)) d
    else last (map val (filter hit la)) d.
Proof.
  rewrite filter_app, map_app, last_app_default.
  destruct (existsb hit lb) eqn:E.
  - apply last_default. apply existsb_exists in E as (x & Hin & Hx).
    assert (Hf : In x (filter hit lb)) by (apply filter_In; auto).
    destruct (filter hit lb); [contradiction | discriminate].
  - assert (Hf : filter hit lb = []).
    { apply filter_none. apply Forall_forall. intros x Hin.
      destruct (hit x) eqn:Hx; [|reflexivity].
      assert (existsb hit lb = true) by (apply existsb_exists; eauto).
      congruence. }
    rewrite Hf. reflexivity.
Qed.

Lemma lines_of_then a b : lines_of (then_reply a b) = lines_of a ++ lines_of b.
Proof. apply split_then. Qed.

(** X2.  Parsing two replies written one after the other gives, field by
    field, what the second reply gives where it has a line for the field,
    and what the first gives elsewhere; [raw_response] is the whole. *)
Theorem later_reply_overrides :
  forall a b, exists ra rb r,
    parse_response a = inr ra
    /\ parse_response b = inr rb
    /\ parse_response (then_reply a b) = inr r
    /\ progress r = (if has_line PROGRESS b then progress rb else progress ra)
    /\ completed r
       = (if has_line COMPLETED_PARTS b then completed rb else completed ra)
    /\ missing r = (if has_line MISSING_PARTS b then missing rb else missing ra)
    /\ notes r = (if has_line NOTES b then notes rb else notes ra)
    /\ raw_response r = then_reply a b.
Proof.
  intros a b. rewrite !parse_response_closed. do 3 eexists.
  do 3 (split; [reflexivity|]).
  cbn [progress completed missing notes raw_response].
  unfold last_written_progress, lines_with, has_line.
  rewrite lines_of_then, !last_filter_app. repeat split.
Qed.

(** ** What the text fields can hold *)

Lemma lstrip_head s :
  match Py.lstrip s with
  | EmptyString => True
  | String c _ => Py.isspace c = false
  end.
Proof.
  induction s as [|c s IH]; simpl; [exact I|].
  destruct (Py.isspace c) eqn:E; [exact IH | exact E].
Qed.

Lemma rstrip_idem : forall s, Py.rstrip (Py.rstrip s) = Py.rstrip s.
Proof.
  induction s as [|c s IH]; [reflexivity|].
  simpl. destruct (Py.rstrip s) as [|d r] eqn:E.
  - destruct (Py.isspace c) eqn:Hc; [reflexivity|]. simpl. rewrite Hc. reflexivity.
  - change (Py.rstrip (String c (String d r)))
      with (match Py.rstrip (String d r) with
            | EmptyString =>
                if Py.isspace c then EmptyString else String c EmptyString
            | x => String c x
            end).
    rewrite IH. reflexivity.
Qed.

Lemma rstrip_keeps_head c s :
  Py.isspace c = false -> exists r, Py.rstrip (String c s) = String c r.
Proof.
  intros H. simpl. destruct (Py.rstrip s); [rewrite H|]; eauto.
Qed.

Lemma strip_idem s : Py.strip (Py.strip s) = Py.strip s.
Proof.
  unfold Py.strip. pose proof (lstrip_head s) as H.
  destruct (Py.lstrip s) as [|c t]; [reflexivity|].
  destruct (rstrip_keeps_head c t H) as [r Hr].
  rewrite Hr. cbn [Py.lstrip]. rewrite H, <- Hr. apply rstrip_idem.
Qed.

Lemma has_char_lstrip c : forall s,
  has_char c s = false -> has_char c (Py.lstrip s) = false.
Proof.
  induction s as [|x s IH]; intros H; [reflexivity|].
  simpl. destruct (Py.isspace x); [|exact H].
  simpl in H. apply orb_false_iff in H as [_ H]. apply IH, H.
Qed.

Lemma has_char_rstrip c : forall s,
  has_char c s = false -> has_char c (Py.rstrip s) = false.
Proof.
  induction s as [|x s IH]; intros H; [reflexivity|].
  simpl in H. apply orb_false_iff in H as [Hx H]. specialize (IH H).
  simpl. destruct (Py.rstrip s) as [|d r].
  - destruct (Py.isspace x); [reflexivity|]. simpl. rewrite Hx. reflexivity.
  - cbn [has_char]. rewrite Hx. exact IH.
Qed.

Lemma has_char_delete c old : forall s k,
  has_char c s = false -> has_char c (Py.replace_from old "" k s) = false.
Proof.
  induction s as [|x s IH]; intros k H; [reflexivity|].
  simpl in H. apply orb_false_iff in H as [Hx H].
  cbn [Py.replace_from]. destruct k as [|k]; [|apply IH, H].
  destruct (Py.startswith old (String x s)).
  - cbn [append]. apply IH, H.
  - cbn [has_char]. rewrite Hx. apply IH, H.
Qed.

Lemma derived_text_clean c prefix line :
  prefix <> "" ->
  has_char c line = false ->
  Py.strip (derived_text prefix line) = derived_text prefix line
  /\ has_char c (derived_text prefix line) = false.
Proof.
  intros Hp H. unfold derived_text. split; [apply strip_idem|].
  unfold Py.strip. apply has_char_rstrip, has_char_lstrip.
  destruct prefix as [|a p]; [congruence|]. apply has_char_delete, H.
Qed.

Lemma last_in_or_default {B} (l : list B) d : last l d = d \/ In (last l d) l.
Proof.
  revert d. induction l as [|x l IH]; intros d; [left; reflexivity|].
  rewrite last_cons. destruct (IH x) as [->|H]; right; [left; reflexivity|].
  right. exact H.
Qed.

Lemma last_derived_text_clean prefix text :
  prefix <> "" ->
  let f := last (map (derived_text prefix) (lines_with prefix text)) "" in
  Py.strip f = f /\ has_char Py.LF f = false.
Proof.
  intros Hp f. subst f.
  destruct (last_in_or_default
              (map (derived_text prefix) (lines_with prefix text)) "")
    as [->|Hin]; [split; reflexivity|].
  apply in_map_iff in Hin as (line & <- & Hline).
  apply derived_text_clean; [exact Hp|].
  unfold lines_with in Hline. apply filter_In in Hline as [Hline _].
  pose proof (split_no_sep Py.LF text) as F.
  rewrite Forall_forall in F. apply F, Hline.
Qed.

(** X3.  Whatever the reply, the three text fields stored are trimmed
    (stripping them again changes nothing) and hold no line feed: a field
    is one line at most. *)
Theorem text_fields_are_trimmed_lines :
  forall text, exists r,
    parse_response text = inr r
    /\ (Py.strip (completed r) = completed r
        /\ has_char Py.LF (completed r) = false)
    /\ (Py.strip (missing r) = missing r /\ has_char Py.LF (missing r) = false)
    /\ (Py.strip (notes r) = notes r /\ has_char Py.LF (notes r) = false).
Proof.
  intros text. rewrite parse_response_closed. eexists.
  split; [reflexivity|]. cbn [completed missing notes].
  repeat split; apply last_derived_text_clean; discriminate.
Qed.

(** ** White space at the end of a line *)

Lemma startswith_length old : forall s,
  Py.startswith old s = true -> String.length old <= String.length s.
Proof.
  induction old as [|a p IH]; intros s H; [simpl; lia|].
  destruct s as [|x s]; simpl in H; [discriminate|].
  destruct (ascii_dec a x); [|discriminate]. simpl. apply le_n_S, IH, H.
Qed.

Lemma startswith_snoc c old : forall s,
  has_char c old = false ->
  Py.startswith old (s ++ String c "") = Py.startswith old s.
Proof.
  induction old as [|a p IH]; intros s H; [destruct s; reflexivity|].
  simpl in H. apply orb_false_iff in H as [Ha Hp].
  destruct s as [|x s]; simpl.
  - destruct (ascii_dec a c) as [->|]; [|reflexivity].
    rewrite Ascii.eqb_refl in Ha. discriminate.
  - destruct (ascii_dec a x); [apply IH, Hp | reflexivity].
Qed.

Lemma replace_from_snoc c a p new :
  has_char c (String a p) = false ->
  forall s k,
    k <= String.length s ->
    Py.replace_from (String a p) new k (s ++ String c "")
    = (Py.replace_from (String a p) new k s ++ String c "")%string.
Proof.
  intros Hc. induction s as [|x s IH]; intros k Hk.
  - assert (k = 0) by (simpl in Hk; lia). subst k.
    cbn [append Py.replace_from].
    change (String c "") with ("" ++ String c "")%string at 1.
    rewrite (startswith_snoc c _ "" Hc). reflexivity.
  - cbn [append Py.replace_from]. destruct k as [|k].
    + change (String x (s ++ String c ""))
        with (String x s ++ String c "")%string at 1.
      rewrite (startswith_snoc c _ (String x s) Hc).
      destruct (Py.startswith (String a p) (String x s)) eqn:E.
      * apply startswith_length in E. simpl in E.
        rewrite IH by (simpl; lia). symmetry. apply append_assoc.
      * rewrite IH by lia. reflexivity.
    + apply IH. simpl in Hk. lia.
Qed.

Lemma replace_snoc c a p new s :
  has_char c (String a p) = false ->
  Py.replace (String a p) new (s ++ String c "")
  = (Py.replace (String a p) new s ++ String c "")%string.
Proof. intros H. apply replace_from_snoc; [exact H | lia]. Qed.

Lemma rstrip_snoc c : forall s,
  Py.isspace c = true -> Py.rstrip (s ++ String c "") = Py.rstrip s.
Proof.
  intros s H. induction s as [|x s IH]; simpl; [rewrite H; reflexivity|].
  rewrite IH. reflexivity.
Qed.

Lemma strip_snoc c : forall s,
  Py.isspace c = true -> Py.strip (s ++ String c "") = Py.strip s.
Proof.
  intros s H. unfold Py.strip. induction s as [|x s IH]; simpl.
  - rewrite H. reflexivity.
  - destruct (Py.isspace x); [exact IH|].
    apply (rstrip_snoc c (String x s) H).
Qed.

Lemma step_snoc v line c :
  Py.isspace c = true -> step v (line ++ String c "") = step v line.
Proof.
  intros H.
  assert (P : forall prefix,
             prefix <> "" -> has_char c prefix = false ->
             Py.startswith prefix (line ++ String c "")
             = Py.startswith prefix line
             /\ derived_text prefix (line ++ String c "")
                = derived_text prefix line).
  { intros prefix Hne Hc. split; [apply startswith_snoc, Hc|].
    unfold derived_text. destruct prefix as [|a p]; [congruence|].
    rewrite replace_snoc by exact Hc. apply strip_snoc, H. }
  assert (Q : forall prefix,
             existsb Py.isspace (list_ascii_of_string prefix) = false ->
             has_char c prefix = false).
  { induction prefix as [|a p IH]; intros E; [reflexivity|].
    simpl in E. apply orb_false_iff in E as [Ea Ep]. simpl.
    rewrite (IH Ep), orb_false_r. apply Ascii.eqb_neq. intros ->. congruence. }
  destruct (P PROGRESS) as [P1 P2]; [discriminate | apply Q; reflexivity|].
  destruct (P COMPLETED_PARTS) as [C1 C2]; [discriminate | apply Q; reflexivity|].
  destruct (P MISSING_PARTS) as [M1 M2]; [discriminate | apply Q; reflexivity|].
  destruct (P NOTES) as [N1 N2]; [discriminate | apply Q; reflexivity|].
  unfold step. rewrite P1, C1, M1, N1, C2, M2, N2.
  unfold derived_progress, progress_str.
  change (Py.strip (Py.replace "PROGRESS:" "" (line ++ String c "")))
    with (derived_text PROGRESS (line ++ String c "")).
  rewrite P2. reflexivity.
Qed.

Lemma step_same_but_trailing_space v line l :
  same_but_trailing_space line l -> step v line = step v l.
Proof.
  intros [->|(c & Hc & ->)]; [reflexivity | apply step_snoc, Hc].
Qed.

(** X4.  White space at the end of a line does not count: a line followed
    by one white space character is scanned as the line itself, so a reply
    with CR LF line ends gives the fields of the same reply with LF line
    ends. *)
Theorem trailing_white_space_is_ignored :
  (forall v line c,
      Py.isspace c = true ->
      scan_line v (line ++ String c "") = scan_line v line)
  /\ (forall text ls,
        Forall2 same_but_trailing_space (lines_of text) ls ->
        exists r, parse_response text = inr r
                  /\ scan_lines ls initial_fields = inr (fields_of r)).
Proof.
  split.
  - intros v line c H. rewrite !scan_line_step, step_snoc by exact H.
    reflexivity.
  - intros text ls F. rewrite parse_response_fold. eexists.
    split; [reflexivity|]. rewrite scan_lines_fold. cbv zeta.
    unfold fields_of. cbn [progress completed missing notes].
    assert (E : forall lines ls,
               Forall2 same_but_trailing_space lines ls ->
               forall v, fold_left step lines v = fold_left step ls v).
    { clear. induction 1 as [|line l lines ls H _ IH]; intros v; [reflexivity|].
      simpl. rewrite (step_same_but_trailing_space v line l H). apply IH. }
    rewrite (E _ _ F). destruct (fold_left step ls initial_fields).
    reflexivity.
Qed.

Lemma trailing_white_space_is_ignored_witness :
  Py.isspace CR = true
  /\ scan_line initial_fields ("PROGRESS: 45%" ++ String CR "")
     = scan_line initial_fields "PROGRESS: 45%"
  /\ exists r,
       parse_response
         ("PROGRESS: 45%" ++ String CR (String Py.LF ("NOTES: fine" ++ String CR "")))
       = inr r
       /\ scan_lines ["PROGRESS: 45%"; "NOTES: fine"] initial_fields
          = inr (fields_of r).
Proof.
  split; [reflexivity|]. split.
  - exact (proj1 trailing_white_space_is_ignored initial_fields
             "PROGRESS: 45%" CR eq_refl).
  - apply (proj2 trailing_white_space_is_ignored).
    apply Forall2_cons; [right; exists CR; split; reflexivity|].
    apply Forall2_cons; [right; exists CR; split; reflexivity|].
    apply Forall2_nil.
Defined.

(** ** The format asked of the model *)

Lemma scan_digits_uint : forall d acc n,
  Py.scan_digits (digits_text d) false (Z.of_nat acc) n
  = Some (Z.of_nat (Nat.of_uint_acc d acc),
          (n + N.of_nat (Decimal.nb_digits d))%N, "").
Proof.
  induction d; intros acc n;
    try (cbn [digits_text NilEmpty.string_of_uint Py.scan_digits
              Nat.of_uint_acc Decimal.nb_digits];
         match goal with
         | |- context [Py.isdigit ?c] =>
             change (Py.isdigit c) with true; cbv iota
         end;
         match goal with
         | |- Py.scan_digits _ false ?z ?m
              = Some (Z.of_nat (Nat.of_uint_acc _ ?a), _, _) =>
             replace z with (Z.of_nat a)
               by (unfold Py.digit_value; rewrite Nat.tail_mul_spec;
                   simpl N_of_ascii; lia)
         end;
         fold (digits_text d); rewrite IHd; f_equal; f_equal; f_equal; lia).
  simpl. rewrite N.add_0_r. reflexivity.
Qed.

(** [int] reads back the decimal writing of a natural number. *)
Lemma int_digits d :
  d <> Decimal.Nil ->
  (N.of_nat (Decimal.nb_digits d) <= Py.int_max_str_digits)%N ->
  Py.int_ (digits_text d) = inr (Z.of_nat (Nat.of_uint d)).
Proof.
  intros Hd Hn. pose proof (scan_digits_uint d 0 0) as S.
  destruct d; [congruence| ..];
    unfold Py.int_;
    cbn [digits_text NilEmpty.string_of_uint Py.skip_spaces] in *;
    match goal with
    | |- context [Py.isspace_int ?c] =>
        change (Py.isspace_int c) with false; cbv iota
    end;
    cbv beta iota zeta;
    change (Z.of_nat 0) with 0%Z in S; rewrite S; rewrite N.add_0_l;
    match goal with
    | |- context [(?x =? 0)%N] =>
        destruct (N.eqb_spec x 0) as [E|_];
        [cbn [Decimal.nb_digits] in E; lia|]
    end;
    match goal with
    | |- context [(?a <? ?b)%N] => destruct (N.ltb_spec a b); [lia|]
    end;
    reflexivity.
Qed.

Lemma to_uint_not_nil p : Nat.to_uint p <> Decimal.Nil.
Proof.
  intros E. pose proof (Unsigned.of_to p) as H. rewrite E in H.
  simpl in H. subst p. discriminate E.
Qed.

Lemma int_format_int p :
  (N.of_nat (Decimal.nb_digits (Nat.to_uint p)) <= Py.int_max_str_digits)%N ->
  Py.int_ (format_int p) = inr (Z.of_nat p).
Proof.
  intros H. unfold format_int. fold (digits_text (Nat.to_uint p)).
  rewrite int_digits by (exact H || apply to_uint_not_nil).
  rewrite Unsigned.of_to. reflexivity.
Qed.

Lemma digits_text_chars c : forall d,
  Py.isdigit c = false -> has_char c (digits_text d) = false.
Proof.
  intros d Hc.
  induction d;
    cbn [digits_text NilEmpty.string_of_uint has_char];
    try reflexivity; fold (digits_text d); rewrite IHd, orb_false_r;
    apply Ascii.eqb_neq; intros <-; discriminate Hc.
Qed.

Lemma digits_text_head d :
  d <> Decimal.Nil ->
  exists x s, digits_text d = String x s /\ Py.isdigit x = true.
Proof.
  destruct d; [congruence| ..]; intros _; do 2 eexists;
    (split; [reflexivity | reflexivity]).
Qed.

Lemma has_char_app c : forall a b,
  has_char c (a ++ b) = has_char c a || has_char c b.
Proof.
  induction a as [|x a IH]; intros b; [reflexivity|].
  simpl. rewrite IH, orb_assoc. reflexivity.
Qed.

(** A text without the first character of [old] does not hold [old]. *)
Lemma contains_no_head a p : forall s,
  has_char a s = false -> Py.contains (String a p) s = false.
Proof.
  induction s as [|x s IH]; intros H; [reflexivity|].
  simpl in H. apply orb_false_iff in H as [Hx Hs].
  cbn [Py.contains]. rewrite (IH Hs), orb_false_r. simpl.
  destruct (ascii_dec a x) as [->|]; [|reflexivity].
  rewrite Ascii.eqb_refl in Hx. discriminate.
Qed.

Lemma rstrip_keeps_last c : forall s,
  Py.isspace c = false -> Py.rstrip (s ++ String c "") = (s ++ String c "")%string.
Proof.
  intros s H. induction s as [|x s IH]; simpl; [rewrite H; reflexivity|].
  rewrite IH. destruct (s ++ String c "")%string eqn:E; [|reflexivity].
  destruct s; discriminate.
Qed.

Lemma delete_char_end c : forall s,
  has_char c s = false ->
  Py.replace (String c "") "" (s ++ String c "") = s.
Proof.
  unfold Py.replace. induction s as [|x s IH]; intros H.
  - simpl. destruct (ascii_dec c c); [reflexivity | contradiction].
  - simpl in H. apply orb_false_iff in H as [Hx Hs].
    cbn [append Py.replace_from]. simpl Py.startswith.
    destruct (ascii_dec c x) as [->|];
      [rewrite Ascii.eqb_refl in Hx; discriminate|].
    rewrite (IH Hs). reflexivity.
Qed.

Lemma progress_line_read p :
  (N.of_nat (Decimal.nb_digits (Nat.to_uint p)) <= Py.int_max_str_digits)%N ->
  derived_progress ("PROGRESS: " ++ format_int p ++ "%") = Z.of_nat p.
Proof.
  intros H. unfold derived_progress, progress_str.
  set (ds := format_int p).
  assert (Hds : forall c, Py.isdigit c = false -> has_char c ds = false)
    by (intros c Hc; apply digits_text_chars, Hc).
  destruct (digits_text_head (Nat.to_uint p) (to_uint_not_nil p))
    as (x & s & Hx & Dx).
  change (digits_text (Nat.to_uint p)) with ds in Hx.
  change ("PROGRESS: " ++ ds ++ "%")%string
    with ("PROGRESS:" ++ String " " (ds ++ "%"))%string.
  rewrite (replace_head "P" "ROGRESS:" "")
    by (apply (startswith_app "PROGRESS:")).
  change (Py.drop (String.length "PROGRESS:")
            ("PROGRESS:" ++ String " " (ds ++ "%")))
    with (String " " (ds ++ "%")).
  rewrite (replace_absent "P" "ROGRESS:" "" (String " " (ds ++ "%"))).
  2:{ apply contains_no_head. cbn [has_char]. rewrite has_char_app, Hds;
        reflexivity. }
  cbn [append]. unfold Py.strip. cbn [Py.lstrip].
  change (Py.isspace " ") with true. cbv iota.
  rewrite Hx. cbn [append Py.lstrip].
  assert (Sx : Py.isspace x = false).
  { destruct (Py.isspace x) eqn:E; [|reflexivity].
    revert Dx E. unfold Py.isdigit, Py.isspace. cbv zeta.
    generalize (N_of_ascii x). intros n Dn En.
    apply andb_true_iff in Dn as [D1 D2].
    apply N.leb_le in D1. apply N.leb_le in D2.
    repeat (apply orb_true_iff in En as [En|En]);
      try (apply andb_true_iff in En as [E1 E2];
           apply N.leb_le in E1; apply N.leb_le in E2; lia);
      apply N.eqb_eq in En; lia. }
  rewrite Sx.
  change (String x (s ++ "%")) with (String x s ++ "%")%string.
  rewrite rstrip_keeps_last by reflexivity.
  rewrite <- Hx. rewrite delete_char_end by (apply Hds; reflexivity).
  unfold ds. rewrite int_format_int by exact H. reflexivity.
Qed.

Lemma drop_app p : forall r, Py.drop (String.length p) (p ++ r) = r.
Proof. induction p as [|a p IH]; intros r; [destruct r; reflexivity | apply IH]. Qed.

Lemma value_line_read a q value :
  a <> " "%char ->
  plain_value (String a q) value ->
  derived_text (String a q) (String a q ++ String " " value) = value.
Proof.
  intros Ha (_ & Hs & Hc). unfold derived_text.
  rewrite replace_head by apply startswith_app.
  rewrite drop_app. rewrite replace_absent.
  - cbn [append]. unfold Py.strip. cbn [Py.lstrip].
    change (Py.isspace " ") with true. cbv iota. exact Hs.
  - cbn [Py.contains]. rewrite Hc, orb_false_r. simpl.
    destruct (ascii_dec a " "); [contradiction | reflexivity].
Qed.

Lemma formatted_reply_lines p done todo remarks :
  has_char Py.LF done = false ->
  has_char Py.LF todo = false ->
  has_char Py.LF remarks = false ->
  lines_of (formatted_reply p done todo remarks)
  = [ ("PROGRESS: " ++ format_int p ++ "%")%string;
      ("COMPLETED_PARTS: " ++ done)%string;
      ("MISSING_PARTS: " ++ todo)%string;
      ("NOTES: " ++ remarks)%string ].
Proof.
  intros Hd Ht Hr. unfold lines_of.
  assert (E : formatted_reply p done todo remarks
              = (("PROGRESS: " ++ format_int p ++ "%")
                 ++ String Py.LF
                      (("COMPLETED_PARTS: " ++ done)
                       ++ String Py.LF
                            (("MISSING_PARTS: " ++ todo)
                             ++ String Py.LF ("NOTES: " ++ remarks))))%string).
  { unfold formatted_reply. cbn [append]. rewrite append_assoc. reflexivity. }
  rewrite E.
  rewrite split_line.
  2:{ cbn [append has_char]. rewrite has_char_app.
      unfold format_int. fold (digits_text (Nat.to_uint p)).
      rewrite digits_text_chars by reflexivity. reflexivity. }
  rewrite split_line by (cbn [append has_char]; rewrite Hd; reflexivity).
  rewrite split_line by (cbn [append has_char]; rewrite Ht; reflexivity).
  rewrite split_single by (cbn [append has_char]; rewrite Hr; reflexivity).
  reflexivity.
Qed.

(** X5.  The parser reads back the format that the instruction asks of the
    model.  A reply made of the four lines [PROGRESS: p%],
    [COMPLETED_PARTS: c], [MISSING_PARTS: m] and [NOTES: n], where p is a
    natural number of at most 4300 digits and each description is one
    trimmed line in which its own prefix does not occur, parses to exactly
    p, c, m and n. *)
Theorem formatted_reply_is_read_back :
  forall p done todo remarks,
    (N.of_nat (Decimal.nb_digits (Nat.to_uint p)) <= Py.int_max_str_digits)%N ->
    plain_value COMPLETED_PARTS done ->
    plain_value MISSING_PARTS todo ->
    plain_value NOTES remarks ->
    parse_response (formatted_reply p done todo remarks)
    = inr (mkResult (Z.of_nat p) done todo remarks
             (formatted_reply p done todo remarks)).
Proof.
  intros p done todo remarks Hp Hd Ht Hr.
  rewrite parse_response_closed.
  unfold last_written_progress, lines_with.
  rewrite formatted_reply_lines by (apply Hd || apply Ht || apply Hr).
  change (filter (Py.startswith PROGRESS) _)
    with [("PROGRESS: " ++ format_int p ++ "%")%string].
  change (filter (Py.startswith COMPLETED_PARTS) _)
    with [(COMPLETED_PARTS ++ String " " done)%string].
  change (filter (Py.startswith MISSING_PARTS) _)
    with [(MISSING_PARTS ++ String " " todo)%string].
  change (filter (Py.startswith NOTES) _)
    with [(NOTES ++ String " " remarks)%string].
  cbn [map last].
  rewrite (progress_line_read p Hp).
  assert (Ec : derived_text COMPLETED_PARTS
                 (COMPLETED_PARTS ++ String " " done) = done)
    by (apply (value_line_read "C" "OMPLETED_PARTS:");
        [discriminate | exact Hd]).
  assert (Em : derived_text MISSING_PARTS
                 (MISSING_PARTS ++ String " " todo) = todo)
    by (apply (value_line_read "M" "ISSING_PARTS:");
        [discriminate | exact Ht]).
  assert (En : derived_text NOTES (NOTES ++ String " " remarks) = remarks)
    by (apply (value_line_read "N" "OTES:"); [discriminate | exact Hr]).
  rewrite Ec, Em, En. reflexivity.
Qed.

Lemma formatted_reply_is_read_back_witness :
  plain_value COMPLETED_PARTS "base plate"
  /\ parse_response (formatted_reply 45 "base plate" "roof" "good start")
     = inr (mkResult 45 "base plate" "roof" "good start" stub_reply).
Proof.
  assert (Hd : plain_value COMPLETED_PARTS "base plate") by (repeat split).
  split; [exact Hd|].
  apply (formatted_reply_is_read_back 45 "base plate" "roof" "good start").
  - vm_compute. discriminate.
  - exact Hd.
  - repeat split.
  - repeat split.
Defined.

(** ** The size and the alphabet of the encoding *)

Lemma b2a_in_table n : In (Base64.b2a n) Base64.table_b2a_base64.
Proof.
  unfold Base64.b2a. apply nth_In.
  assert (H : (N.land n 63 < 64)%N).
  { change 63%N with (N.ones 6). rewrite N.land_ones.
    apply N.mod_lt. discriminate. }
  change (List.length Base64.table_b2a_base64) with 64. lia.
Qed.

Lemma b64encode_length : forall s,
  List.length (Base64.b64encode s) = 4 * ((List.length s + 2) / 3).
Proof.
  induction s as [|b0|b0 b1|b0 b1 b2 s IH] using Base64Facts.list_ind3;
    try reflexivity.
  cbn [Base64.b64encode List.length]. rewrite IH.
  replace (S (S (S (List.length s))) + 2) with ((List.length s + 2) + 1 * 3)
    by lia.
  rewrite Nat.div_add by discriminate. lia.
Qed.

Lemma b64encode_alphabet : forall s, Forall base64_char (Base64.b64encode s).
Proof.
  assert (A : forall n, base64_char (Base64.b2a n))
    by (intros n; left; apply b2a_in_table).
  assert (P : base64_char Base64.BASE64_PAD) by (right; reflexivity).
  induction s as [|b0|b0 b1|b0 b1 b2 s IH] using Base64Facts.list_ind3;
    cbn [Base64.b64encode].
  - apply Forall_nil.
  - do 2 (apply Forall_cons; [apply A|]).
    do 2 (apply Forall_cons; [exact P|]). apply Forall_nil.
  - do 3 (apply Forall_cons; [apply A|]).
    apply Forall_cons; [exact P|]. apply Forall_nil.
  - do 4 (apply Forall_cons; [apply A|]). exact IH.
Qed.

Lemma string_of_list_byte_length l :
  String.length (string_of_list_byte l) = List.length l.
Proof.
  unfold string_of_list_byte.
  induction l as [|b l IH]; [reflexivity|]. simpl. rewrite IH. reflexivity.
Qed.

(** X6.  The base64 text of an image whose JPEG stream has n bytes has
    4 * ceil(n / 3) characters, all of them letters, digits, [+], [/] or the
    padding [=], and the data URI is 23 characters longer. *)
Theorem encoding_size_and_alphabet :
  forall Image (save_jpeg : Image -> Exc (list byte)) image jpeg,
    save_jpeg image = inr jpeg ->
    exists s,
      encode_image_to_base64 Image save_jpeg image = inr s
      /\ String.length s = 4 * ((List.length jpeg + 2) / 3)
      /\ Forall base64_char (list_byte_of_string s)
      /\ String.length (data_uri s) = 23 + String.length s.
Proof.
  intros Image save_jpeg image jpeg H. unfold encode_image_to_base64.
  rewrite H. eexists. split; [reflexivity|].
  split; [rewrite string_of_list_byte_length; apply b64encode_length|].
  split; [|reflexivity].
  rewrite list_byte_of_string_of_list_byte. apply b64encode_alphabet.
Qed.

Lemma encoding_size_and_alphabet_witness :
  Demo.save_jpeg Demo.current = inr Demo.current
  /\ exists s,
       encode_image_to_base64 Demo.Image Demo.save_jpeg Demo.current = inr s
       /\ String.length s = 4 * ((List.length Demo.current + 2) / 3)
       /\ Forall base64_char (list_byte_of_string s)
       /\ String.length (data_uri s) = 23 + String.length s.
Proof.
  split; [reflexivity|].
  exact (encoding_size_and_alphabet Demo.Image Demo.save_jpeg
           Demo.current Demo.current eq_refl).
Defined.

(** ** More on the analyzer *)

Section AnalyzerMore.

Variable Image : Type.
Variable save_jpeg : Image -> Exc (list byte).
Variable Client : Type.
Variable OpenAI : string -> Exc Client.
Variable chat_completions_create : Client -> ChatRequest -> Exc ChatCompletion.

Local Abbreviation encode := (encode_image_to_base64 Image save_jpeg).
Local Abbreviation add_refs := (add_reference_images Image save_jpeg).
Local Abbreviation request_of := (build_request Image save_jpeg).
Local Abbreviation body :=
  (analyze_body Image save_jpeg Client OpenAI chat_completions_create).
Local Abbreviation analyze :=
  (analyze_progress_with_gpt4 Image save_jpeg Client OpenAI
     chat_completions_create).
Local Abbreviation button :=
  (analyze_button Image save_jpeg Client OpenAI chat_completions_create).

Local Abbreviation encodes := (fun img jpeg => save_jpeg img = inr jpeg).

(** X7.  Two images get the same base64 text, or the same data URI, only
    when their JPEG streams are the same. *)
Theorem encoding_is_injective :
  forall image1 image2 jpeg1 jpeg2 s1 s2,
    save_jpeg image1 = inr jpeg1 ->
    save_jpeg image2 = inr jpeg2 ->
    encode image1 = inr s1 ->
    encode image2 = inr s2 ->
    data_uri s1 = data_uri s2 ->
    jpeg1 = jpeg2.
Proof.
  intros i1 i2 j1 j2 s1 s2 H1 H2 E1 E2 U.
  rewrite (encode_returns _ _ _ _ H1) in E1. injection E1 as <-.
  rewrite (encode_returns _ _ _ _ H2) in E2. injection E2 as <-.
  apply (f_equal uri_payload) in U. rewrite !uri_payload_data_uri in U.
  apply (f_equal Base64.b64decode) in U. unfold Base64.b64decode in U.
  rewrite !list_byte_of_string_of_list_byte in U.
  rewrite !Base64Facts.b64decode_b64encode in U. congruence.
Qed.

Lemma add_reference_images_inv : forall refs i content out,
  add_refs i refs content = inr out ->
  exists jpegs, Forall2 encodes refs jpegs.
Proof.
  induction refs as [|img refs IH]; intros i content out H.
  - exists []. constructor.
  - cbn [add_reference_images] in H. unfold encode_image_to_base64 in H.
    destruct (save_jpeg img) as [e|jpeg] eqn:E; [discriminate|].
    cbn [bind ret] in H. destruct (IH _ _ _ H) as [jpegs F].
    exists (jpeg :: jpegs). constructor; assumption.
Qed.

Lemma add_reference_images_raises : forall ok jpegs bad rest e i content,
  Forall2 encodes ok jpegs ->
  save_jpeg bad = inl e ->
  add_refs i (ok ++ bad :: rest) content = inl e.
Proof.
  intros ok jpegs bad rest e i content F Hbad. revert i content.
  induction F as [|img jpeg ok jpegs Himg _ IH]; intros i content.
  - cbn [app add_reference_images]. rewrite (encode_raises _ _ _ _ Hbad).
    reflexivity.
  - cbn [app add_reference_images]. rewrite (encode_returns _ _ _ _ Himg).
    cbn [bind]. apply IH.
Qed.

(** X8.  A request is built exactly when every image can be written as
    JPEG, and it is then the request of the specification.  Otherwise the
    construction raises what the codec raised on the first image that
    fails, the current image being encoded first and the reference images
    after it in their order. *)
Theorem request_built_iff_images_encode :
  (forall refs cur request,
      request_of refs cur = inr request
      <-> exists ref_jpegs cur_jpeg,
            Forall2 encodes refs ref_jpegs
            /\ save_jpeg cur = inr cur_jpeg
            /\ request
               = mkRequest "gpt-4o-mini"
                   [mkMessage "user" (expected_content ref_jpegs cur_jpeg)]
                   500)
  /\ (forall refs cur e, save_jpeg cur = inl e -> request_of refs cur = inl e)
  /\ (forall ok jpegs bad rest cur cur_jpeg e,
        save_jpeg cur = inr cur_jpeg ->
        Forall2 encodes ok jpegs ->
        save_jpeg bad = inl e ->
        request_of (ok ++ bad :: rest) cur = inl e).
Proof.
  split; [|split].
  - intros refs cur request. split.
    + intros H. unfold build_request in H. unfold encode_image_to_base64 in H at 1.
      destruct (save_jpeg cur) as [e|cj] eqn:Hcur; [discriminate|].
      cbn [bind ret] in H.
      destruct (add_refs 1 refs [text_part instruction]) as [e|content] eqn:Ha;
        [discriminate|].
      destruct (add_reference_images_inv _ _ _ _ Ha) as [jpegs F].
      exists jpegs, cj. split; [exact F|]. split; [reflexivity|].
      rewrite (add_reference_images_returns _ _ _ _ F) in Ha.
      injection Ha as <-. cbn [bind ret] in H. injection H as <-.
      unfold expected_content. cbn [app]. reflexivity.
    + intros (jpegs & cj & F & Hcur & ->). unfold build_request.
      rewrite (encode_returns _ _ _ _ Hcur). cbn [bind].
      rewrite (add_reference_images_returns _ _ _ _ F). reflexivity.
  - intros refs cur e H. unfold build_request.
    rewrite (encode_raises _ _ _ _ H). reflexivity.
  - intros ok jpegs bad rest cur cj e Hcur F Hbad. unfold build_request.
    rewrite (encode_returns _ _ _ _ Hcur). cbn [bind].
    rewrite (add_reference_images_raises _ _ _ _ _ _ _ F Hbad). reflexivity.
Qed.

(** X9.  When the client cannot be made, or when an image cannot be
    encoded, the analysis ends with that error whatever the service would
    answer: no request is made. *)
Theorem no_request_without_client_and_images :
  forall refs cur key e,
    (OpenAI key = inl e
     \/ exists client, OpenAI key = inr client /\ request_of refs cur = inl e) ->
    forall service,
      analyze_progress_with_gpt4 Image save_jpeg Client OpenAI service
        refs cur key
      = (None, [error_message e]).
Proof.
  intros refs cur key e H service.
  unfold analyze_progress_with_gpt4, analyze_body.
  destruct H as [H|(client & Hc & Hr)].
  - rewrite H. reflexivity.
  - rewrite Hc. cbn [bind]. rewrite Hr. reflexivity.
Qed.

(** X10.  The analysis ends in one of two ways.  Either it returns a
    result and shows nothing: the client was made, the request built, the
    call answered with a text, and the result is the parse of that text.  Or
    it returns [None] and shows one message, which begins with "Error
    analyzing images: ", for one of four causes: the client, the encoding
    of an image, the call, or an answer without choice or text.  Parsing
    the text is never a cause. *)
Theorem analysis_outcomes :
  forall refs cur key,
    (exists r client request response text,
        analyze refs cur key = (Some r, [])
        /\ OpenAI key = inr client
        /\ request_of refs cur = inr request
        /\ chat_completions_create client request = inr response
        /\ result_text_of response = inr text
        /\ parse_response text = inr r)
    \/ (exists e,
          analyze refs cur key
          = (None, [("Error analyzing images: " ++ exc_str e)%string])
          /\ (OpenAI key = inl e
              \/ exists client,
                  OpenAI key = inr client
                  /\ (request_of refs cur = inl e
                      \/ exists request,
                          request_of refs cur = inr request
                          /\ (chat_completions_create client request = inl e
                              \/ exists response,
                                  chat_completions_create client request
                                  = inr response
                                  /\ result_text_of response = inl e)))).
Proof.
  intros refs cur key. unfold analyze_progress_with_gpt4, analyze_body.
  destruct (OpenAI key) as [e|client] eqn:Hc;
    [right; exists e; split; [reflexivity | left; reflexivity]|].
  cbn [bind].
  destruct (request_of refs cur) as [e|request] eqn:Hr.
  { right. exists e. split; [reflexivity|]. right. exists client.
    split; [reflexivity | left; reflexivity]. }
  cbn [bind].
  destruct (chat_completions_create client request) as [e|response] eqn:Hs.
  { right. exists e. split; [reflexivity|]. right. exists client.
    split; [reflexivity|]. right. exists request.
    split; [reflexivity | left; exact Hs]. }
  cbn [bind].
  destruct (result_text_of response) as [e|text] eqn:Ht.
  { right. exists e. split; [reflexivity|]. right. exists client.
    split; [reflexivity|]. right. exists request. split; [reflexivity|].
    right. exists response. split; assumption. }
  cbn [bind]. rewrite parse_response_closed. left.
  do 5 eexists. split; [reflexivity|].
  repeat split; try reflexivity; try eassumption.
  rewrite parse_response_closed. reflexivity.
Qed.

(** X11.  When the analysis succeeds the button stores the parse of the
    new reply in place of the earlier result, from which nothing is kept,
    and shows no message; the captured image stays. *)
Theorem success_replaces_result :
  forall refs cur key client request response text st,
    refs <> [] ->
    current_image st = Some cur ->
    OpenAI key = inr client ->
    request_of refs cur = inr request ->
    chat_completions_create client request = inr response ->
    result_text_of response = inr text ->
    exists r,
      parse_response text = inr r
      /\ button (Some refs) key st
         = (mkSession (Some cur) (Some r) (captured_frame st), []).
Proof.
  intros refs cur key client request response text st Hne Hcur Hc Hr Hs Ht.
  rewrite parse_response_closed. eexists. split; [reflexivity|].
  unfold analyze_button. rewrite Hcur.
  destruct refs as [|r0 refs]; [contradiction|].
  unfold analyze_progress_with_gpt4.
  rewrite (body_returns _ _ _ _ _ _ _ _ _ _ _ _ Hc Hr Hs Ht).
  rewrite parse_response_closed. reflexivity.
Qed.

End AnalyzerMore.

Lemma encoding_is_injective_witness :
  Demo.save_jpeg Demo.front = inr Demo.front
  /\ (data_uri "ZnJvbnQ=" = data_uri "ZnJvbnQ=" -> Demo.front = Demo.front).
Proof.
  split; [reflexivity|]. intros U.
  exact (encoding_is_injective Demo.Image Demo.save_jpeg
           Demo.front Demo.front Demo.front Demo.front "ZnJvbnQ=" "ZnJvbnQ="
           eq_refl eq_refl eq_refl eq_refl U).
Defined.

Lemma request_built_iff_images_encode_witness :
  DemoPage.save_unless_empty [] = inl (mkExc "OSError" "cannot write empty image as JPEG")
  /\ build_request Demo.Image DemoPage.save_unless_empty
       [Demo.front; []; Demo.top] Demo.current
     = inl (mkExc "OSError" "cannot write empty image as JPEG").
Proof.
  split; [reflexivity|].
  apply (proj2 (proj2 (request_built_iff_images_encode Demo.Image
                         DemoPage.save_unless_empty))
           [Demo.front] [Demo.front] [] [Demo.top] Demo.current Demo.current).
  - reflexivity.
  - repeat constructor.
  - reflexivity.
Defined.

Lemma no_request_without_client_and_images_witness :
  build_request Demo.Image Demo.save_fails [Demo.front] Demo.current
  = inl (mkExc "OSError" "cannot write mode RGBA as JPEG")
  /\ analyze_progress_with_gpt4 Demo.Image Demo.save_fails Demo.Client
       Demo.OpenAI (Demo.replying stub_reply) [Demo.front] Demo.current "key"
     = (None, ["Error analyzing images: cannot write mode RGBA as JPEG"]).
Proof.
  split; [reflexivity|].
  refine (no_request_without_client_and_images Demo.Image Demo.save_fails
            Demo.Client Demo.OpenAI [Demo.front] Demo.current "key"
            (mkExc "OSError" "cannot write mode RGBA as JPEG") _
            (Demo.replying stub_reply)).
  right. exists "key". split; reflexivity.
Defined.

Lemma success_replaces_result_witness :
  current_image Demo.session = Some Demo.current
  /\ exists r,
       parse_response "NOTES: nearly there" = inr r
       /\ analyze_button Demo.Image Demo.save_jpeg Demo.Client Demo.OpenAI
            (Demo.replying "NOTES: nearly there") (Some [Demo.front]) "key"
            Demo.session
          = (mkSession (Some Demo.current) (Some r) None, []).
Proof.
  split; [reflexivity|].
  apply (success_replaces_result Demo.Image Demo.save_jpeg Demo.Client
           Demo.OpenAI (Demo.replying "NOTES: nearly there")
           [Demo.front] Demo.current "key" "key"
           (mkRequest "gpt-4o-mini"
              [mkMessage "user" (expected_content [Demo.front] Demo.current)]
              500)
           (mkCompletion [mkChoice (Some "NOTES: nearly there")])
           "NOTES: nearly there" Demo.session);
    (discriminate || reflexivity).
Defined.

(** ** The reference images and the photo *)

Section PageFacts.

Variable Image : Type.
Variable open_path : string -> Exc Image.
Variable Upload : Type.
Variable open_upload : Upload -> Exc Image.
Variable save_jpeg : Image -> Exc (list byte).
Variable Client : Type.
Variable OpenAI : string -> Exc Client.
Variable chat_completions_create : Client -> ChatRequest -> Exc ChatCompletion.

Local Abbreviation load := (load_images Image open_path).
Local Abbreviation opens := (fun path img => open_path path = inr img).

Lemma load_images_some : forall paths images loaded,
  load paths images = Some loaded
  <-> exists opened, Forall2 opens paths opened /\ loaded = images ++ opened.
Proof.
  induction paths as [|path paths IH]; intros images loaded.
  - cbn [load_images]. split.
    + intros [= <-]. exists []. split; [constructor | symmetry; apply app_nil_r].
    + intros (opened & F & ->). inversion F. rewrite app_nil_r. reflexivity.
  - cbn [load_images]. destruct (open_path path) as [e|img] eqn:E.
    + split; [discriminate|]. intros (opened & F & _).
      inversion F as [|? ? ? ? Hp _]; subst. congruence.
    + rewrite IH. split.
      * intros (opened & F & ->). exists (img :: opened).
        split; [constructor; assumption|]. rewrite <- app_assoc. reflexivity.
      * intros (opened & F & ->).
        inversion F as [|? img' ? opened' Hp F']; subst.
        assert (img' = img) by congruence. subst img'.
        exists opened'. split; [exact F'|]. rewrite <- app_assoc. reflexivity.
Qed.

Lemma load_images_none : forall paths images,
  load paths images = None
  <-> Exists (fun path => exists e, open_path path = inl e) paths.
Proof.
  induction paths as [|path paths IH]; intros images.
  - cbn [load_images]. split; [discriminate | intros H; inversion H].
  - cbn [load_images]. destruct (open_path path) as [e|img] eqn:E.
    + split; [intros _; left; eauto | reflexivity].
    + rewrite IH. split; [intros H; right; exact H|].
      intros H. inversion H as [? ? (e & He)|]; subst; [congruence | assumption].
Qed.

(** X12.  [load_reference_images] returns the three reference images, in
    the order of their paths, exactly when each of the three files can be
    opened; it returns [None] exactly when one of them cannot; it never
    returns fewer images. *)
Theorem reference_images_all_or_none :
  (forall images,
      load_reference_images Image open_path = Some images
      <-> exists img1 img2 img3,
            open_path "images/reference_1.jpg" = inr img1
            /\ open_path "images/reference_2.jpg" = inr img2
            /\ open_path "images/reference_3.jpg" = inr img3
            /\ images = [img1; img2; img3])
  /\ (load_reference_images Image open_path = None
      <-> exists path e, In path REFERENCE_IMAGES /\ open_path path = inl e).
Proof.
  split.
  - intros images. unfold load_reference_images. rewrite load_images_some.
    split.
    + intros (opened & F & ->). unfold REFERENCE_IMAGES in F.
      inversion F as [|? i1 ? o1 H1 F1]; subst.
      inversion F1 as [|? i2 ? o2 H2 F2]; subst.
      inversion F2 as [|? i3 ? o3 H3 F3]; subst.
      inversion F3; subst. exists i1, i2, i3. repeat split; assumption.
    + intros (i1 & i2 & i3 & H1 & H2 & H3 & ->). exists [i1; i2; i3].
      split; [|reflexivity]. repeat constructor; assumption.
  - unfold load_reference_images. rewrite load_images_none, Exists_exists.
    split.
    + intros (path & Hin & e & He). eauto.
    + intros (path & e & Hin & He). eauto.
Qed.

Lemma load_reference_images_three images :
  load_reference_images Image open_path = Some images ->
  exists img1 img2 img3, images = [img1; img2; img3].
Proof.
  unfold load_reference_images. rewrite load_images_some.
  intros (opened & F & ->). unfold REFERENCE_IMAGES in F.
  inversion F as [|? i1 ? o1 H1 F1]; subst.
  inversion F1 as [|? i2 ? o2 H2 F2]; subst.
  inversion F2 as [|? i3 ? o3 H3 F3]; subst.
  inversion F3; subst. exists i1, i2, i3. reflexivity.
Qed.

(** X13.  The reference images that the page hands to the analyzer are
    always three: those of the three files when all of them open, else
    those of the three upload slots when all three are filled, in the
    order front, side, top.  The request built from them therefore has
    nine parts, the reference images being numbered 1, 2 and 3, as the
    instruction announces. *)
Theorem page_gives_three_references :
  (forall ref1 ref2 ref3 refs,
      reference_images_of_page Image open_path Upload open_upload
        ref1 ref2 ref3 = inr (Some refs) ->
      exists img1 img2 img3,
        refs = [img1; img2; img3]
        /\ (load_reference_images Image open_path = Some refs
            \/ (load_reference_images Image open_path = None
                /\ exists file1 file2 file3,
                    ref1 = Some file1 /\ ref2 = Some file2 /\ ref3 = Some file3
                    /\ open_upload file1 = inr img1
                    /\ open_upload file2 = inr img2
                    /\ open_upload file3 = inr img3)))
  /\ (forall ref1 ref2 ref3 refs cur request,
        reference_images_of_page Image open_path Upload open_upload
          ref1 ref2 ref3 = inr (Some refs) ->
        build_request Image save_jpeg refs cur = inr request ->
        exists jpeg1 jpeg2 jpeg3 cur_jpeg,
          request
          = mkRequest "gpt-4o-mini"
              [mkMessage "user"
                 (text_part instruction
                  :: labelled_image (reference_label 1) jpeg1
                  ++ labelled_image (reference_label 2) jpeg2
                  ++ labelled_image (reference_label 3) jpeg3
                  ++ labelled_image current_label cur_jpeg)]
              500
          /\ List.length
               (text_part instruction
                :: labelled_image (reference_label 1) jpeg1
                ++ labelled_image (reference_label 2) jpeg2
                ++ labelled_image (reference_label 3) jpeg3
                ++ labelled_image current_label cur_jpeg) = 9).
Proof.
  assert (P1 : forall ref1 ref2 ref3 refs,
             reference_images_of_page Image open_path Upload open_upload
               ref1 ref2 ref3 = inr (Some refs) ->
             exists img1 img2 img3,
               refs = [img1; img2; img3]
               /\ (load_reference_images Image open_path = Some refs
                   \/ (load_reference_images Image open_path = None
                       /\ exists file1 file2 file3,
                           ref1 = Some file1 /\ ref2 = Some file2
                           /\ ref3 = Some file3
                           /\ open_upload file1 = inr img1
                           /\ open_upload file2 = inr img2
                           /\ open_upload file3 = inr img3))).
  { intros ref1 ref2 ref3 refs H. unfold reference_images_of_page in H.
    cbv zeta in H.
    destruct (load_reference_images Image open_path) as [loaded|] eqn:L.
    - destruct (load_reference_images_three _ L) as (i1 & i2 & i3 & ->).
      injection H as <-. exists i1, i2, i3. split; [reflexivity|].
      left. reflexivity.
    - destruct ref1 as [f1|]; [|discriminate].
      destruct ref2 as [f2|]; [|discriminate].
      destruct ref3 as [f3|]; [|discriminate].
      destruct (open_upload f1) as [e|i1] eqn:E1; [discriminate|].
      destruct (open_upload f2) as [e|i2] eqn:E2; [discriminate|].
      destruct (open_upload f3) as [e|i3] eqn:E3; [discriminate|].
      cbn [bind ret] in H. injection H as <-. exists i1, i2, i3.
      split; [reflexivity|]. right. split; [reflexivity|].
      exists f1, f2, f3. repeat split; assumption. }
  split; [exact P1|].
  intros ref1 ref2 ref3 refs cur request H B.
  destruct (P1 _ _ _ _ H) as (i1 & i2 & i3 & -> & _).
  unfold build_request, encode_image_to_base64 in B.
  cbn [add_reference_images] in B. unfold encode_image_to_base64 in B.
  destruct (save_jpeg cur) as [e|jc]; [discriminate|]. cbn [bind ret] in B.
  destruct (save_jpeg i1) as [e|j1]; [discriminate|]. cbn [bind ret] in B.
  destruct (save_jpeg i2) as [e|j2]; [discriminate|]. cbn [bind ret] in B.
  destruct (save_jpeg i3) as [e|j3]; [discriminate|]. cbn [bind ret] in B.
  injection B as <-. exists j1, j2, j3, jc. split; reflexivity.
Qed.


End PageFacts.

Lemma reference_images_all_or_none_witness :
  load_reference_images Demo.Image DemoPage.open_path = None
  /\ load_reference_images Demo.Image DemoPage.open_any
     = Some [ list_byte_of_string "images/reference_1.jpg";
              list_byte_of_string "images/reference_2.jpg";
              list_byte_of_string "images/reference_3.jpg" ].
Proof.
  split.
  - apply (proj2 (proj2 (reference_images_all_or_none Demo.Image
                           DemoPage.open_path))).
    exists "images/reference_2.jpg",
      (mkExc "FileNotFoundError" "images/reference_2.jpg").
    split; [right; left; reflexivity | reflexivity].
  - apply (proj2 (proj1 (reference_images_all_or_none Demo.Image
                           DemoPage.open_any) _)).
    do 3 eexists. repeat split; reflexivity.
Defined.

Lemma page_gives_three_references_witness :
  reference_images_of_page Demo.Image DemoPage.open_path DemoPage.Upload
    DemoPage.open_upload (Some Demo.front) (Some Demo.side) (Some Demo.top)
  = inr (Some [Demo.front; Demo.side; Demo.top])
  /\ exists img1 img2 img3,
       [Demo.front; Demo.side; Demo.top] = [img1; img2; img3]
       /\ (load_reference_images Demo.Image DemoPage.open_path
           = Some [Demo.front; Demo.side; Demo.top]
           \/ (load_reference_images Demo.Image DemoPage.open_path = None
               /\ exists file1 file2 file3,
                   Some Demo.front = Some file1
                   /\ Some Demo.side = Some file2
                   /\ Some Demo.top = Some file3
                   /\ DemoPage.open_upload file1 = inr img1
                   /\ DemoPage.open_upload file2 = inr img2
                   /\ DemoPage.open_upload file3 = inr img3)).
Proof.
  split; [reflexivity|].
  exact (proj1 (page_gives_three_references Demo.Image DemoPage.open_path
                  DemoPage.Upload DemoPage.open_upload Demo.save_jpeg)
           (Some Demo.front) (Some Demo.side) (Some Demo.top)
           [Demo.front; Demo.side; Demo.top] eq_refl).
Defined.


(** ** The video processor *)

Section VideoFacts.

Variable Frame NdArray : Type.
Variable to_ndarray : Frame -> Exc NdArray.
Variable from_ndarray : NdArray -> Exc Frame.

(** X15.  After any run of frames the processor holds the pixels of the
    last frame that could be converted, and what it held before when none
    could; a frame is answered by its own pixels put back into a frame. *)
Theorem processor_keeps_latest_frame :
  (forall frames self,
      frame_to_capture NdArray
        (recv_all Frame NdArray to_ndarray from_ndarray self frames)
      = last (map Some (converted Frame NdArray to_ndarray frames))
          (frame_to_capture NdArray self))
  /\ (forall self frame img,
        to_ndarray frame = inr img ->
        recv Frame NdArray to_ndarray from_ndarray self frame
        = (mkProcessor NdArray (Some img), from_ndarray img))
  /\ (forall self frame e,
        to_ndarray frame = inl e ->
        recv Frame NdArray to_ndarray from_ndarray self frame = (self, inl e)).
Proof.
  split; [|split].
  - unfold recv_all, converted.
    induction frames as [|frame frames IH]; intros self; [reflexivity|].
    cbn [fold_left flat_map]. rewrite IH. unfold recv.
    destruct (to_ndarray frame) as [e|img]; cbn [fst app map];
      [reflexivity|].
    rewrite last_cons. reflexivity.
  - intros self frame img H. unfold recv. rewrite H. reflexivity.
  - intros self frame e H. unfold recv. rewrite H. reflexivity.
Qed.

End VideoFacts.

Lemma processor_keeps_latest_frame_witness :
  recv nat nat (fun n => inr (2 * n)) (fun n => inr n)
    (VideoProcessor_init nat) 21
  = (mkProcessor nat (Some 42), inr 42).
Proof.
  exact (proj1 (proj2 (processor_keeps_latest_frame nat nat
                         (fun n => inr (2 * n)) (fun n => inr n)))
           (VideoProcessor_init nat) 21 42 eq_refl).
Defined.

(** ** The sign of the progress *)

Lemma scan_digits_nonneg : forall s prev acc n v k rest,
  (0 <= acc)%Z ->
  Py.scan_digits s prev acc n = Some (v, k, rest) -> (0 <= v)%Z.
Proof.
  induction s as [|c s IH]; intros prev acc n v k rest Hacc H.
  - simpl in H. destruct prev; [discriminate|]. injection H as <- _ _. exact Hacc.
  - cbn [Py.scan_digits] in H. destruct (Py.isdigit c) eqn:D.
    + apply IH in H; [exact H|]. unfold Py.isdigit in D. cbv zeta in D.
      apply andb_true_iff in D as [D _]. apply N.leb_le in D.
      unfold Py.digit_value. lia.
    + destruct (Ascii.eqb c Py.underscore).
      * destruct prev; [discriminate|]. apply IH in H; assumption.
      * destruct prev; [discriminate|]. injection H as <- _ _. exact Hacc.
Qed.

Lemma has_char_skip_spaces c : forall s,
  has_char c s = false -> has_char c (Py.skip_spaces s) = false.
Proof.
  induction s as [|x s IH]; intros H; [reflexivity|].
  simpl. destruct (Py.isspace_int x); [|exact H].
  simpl in H. apply orb_false_iff in H as [_ H]. apply IH, H.
Qed.

Lemma int_nonneg_of_scan s s2 n :
  match s2 with
  | String "_" _ => raise (Py.ValueError s)
  | _ =>
      match Py.scan_digits s2 false 0 0 with
      | None => raise (Py.ValueError s)
      | Some (v, k, rest) =>
          if (k =? 0)%N then raise (Py.ValueError s)
          else if (Py.int_max_str_digits <? k)%N then raise Py.ValueError_limit
          else match Py.skip_spaces rest with
               | EmptyString => ret v
               | _ => raise (Py.ValueError s)
               end
      end
  end = inr n ->
  (0 <= n)%Z.
Proof.
  intros H.
  assert (G : match Py.scan_digits s2 false 0 0 with
              | None => raise (Py.ValueError s)
              | Some (v, k, rest) =>
                  if (k =? 0)%N then raise (Py.ValueError s)
                  else if (Py.int_max_str_digits <? k)%N
                       then raise Py.ValueError_limit
                       else match Py.skip_spaces rest with
                            | EmptyString => ret v
                            | _ => raise (Py.ValueError s)
                            end
              end = inr n).
  { destruct s2 as [|c r]; [exact H|].
    destruct c as [[] [] [] [] [] [] [] []]; try exact H; discriminate H. }
  clear H.
  destruct (Py.scan_digits s2 false 0 0) as [[[v k] rest]|] eqn:E;
    [|discriminate].
  destruct (k =? 0)%N; [discriminate|].
  destruct (Py.int_max_str_digits <? k)%N; [discriminate|].
  destruct (Py.skip_spaces rest); [|discriminate].
  injection G as <-. apply (scan_digits_nonneg _ _ _ _ _ _ _ (Z.le_refl 0) E).
Qed.

(** [int] gives a negative number only for a text that holds a minus
    sign. *)
Lemma int_negative_has_minus s n :
  Py.int_ s = inr n -> (n < 0)%Z -> has_char "-" s = true.
Proof.
  intros H Hn. destruct (has_char "-" s) eqn:M; [reflexivity|].
  apply (has_char_skip_spaces "-") in M.
  unfold Py.int_ in H. cbv zeta in H.
  destruct (Py.skip_spaces s) as [|c r].
  - pose proof (int_nonneg_of_scan s "" n H). lia.
  - destruct (Ascii.eqb c "-") eqn:E; [simpl in M; rewrite E in M; discriminate|].
    destruct c as [[] [] [] [] [] [] [] []]; try discriminate E;
      match type of E with
      | Ascii.eqb ?x _ = false =>
          first [ pose proof (int_nonneg_of_scan s (String x r) n H)
                | pose proof (int_nonneg_of_scan s r n H) ]
      end; lia.
Qed.

Lemma progress_str_chars c line :
  has_char c line = false -> has_char c (progress_str line) = false.
Proof.
  intros H. unfold progress_str, Py.replace.
  apply has_char_delete. unfold Py.strip.
  apply has_char_rstrip, has_char_lstrip, has_char_delete, H.
Qed.

(** X16.  The progress stored is negative only when a line of the reply
    that begins with [PROGRESS:] holds a minus sign. *)
Theorem negative_progress_needs_minus :
  forall text r,
    parse_response text = inr r ->
    (progress r < 0)%Z ->
    exists line,
      In line (lines_of text)
      /\ Py.startswith PROGRESS line = true
      /\ has_char "-" line = true.
Proof.
  intros text r H Hneg. rewrite parse_response_closed in H.
  injection H as <-. cbn [progress] in Hneg. unfold last_written_progress in Hneg.
  destruct (last_in_or_default
              (map derived_progress (lines_with PROGRESS text)) 0%Z)
    as [E|Hin]; [rewrite E in Hneg; lia|].
  apply in_map_iff in Hin as (line & Hd & Hline).
  rewrite <- Hd in Hneg. exists line.
  unfold lines_with in Hline. apply filter_In in Hline as [Hin Hs].
  split; [exact Hin|]. split; [exact Hs|].
  destruct (has_char "-" line) eqn:M; [reflexivity|].
  apply progress_str_chars in M. unfold derived_progress in Hneg.
  destruct (Py.int_ (progress_str line)) as [e|n] eqn:I; [lia|].
  rewrite (int_negative_has_minus _ _ I Hneg) in M. discriminate.
Qed.

Lemma negative_progress_needs_minus_witness :
  (progress (mkResult (-5) "" "" "" "PROGRESS: -5%") < 0)%Z
  /\ exists line,
       In line (lines_of "PROGRESS: -5%")
       /\ Py.startswith PROGRESS line = true
       /\ has_char "-" line = true.
Proof.
  assert (N : (progress (mkResult (-5) "" "" "" "PROGRESS: -5%") < 0)%Z)
    by (simpl; lia).
  split; [exact N|].
  exact (negative_progress_needs_minus "PROGRESS: -5%"
           (mkResult (-5) "" "" "" "PROGRESS: -5%") eq_refl N).
Defined.
